(** * Session manager: cookie lifecycle over a pluggable Provider

    A shallow embedding of [session.go] (package [session]): the Provider
    registry, the Manager with its identifier generator, [SessionStart],
    [SessionDestroy] and [GC].  The few functions of Go's standard library
    the Manager calls ([base64.URLEncoding.EncodeToString],
    [url.QueryEscape], [url.QueryUnescape], [Request.Cookie],
    [http.SetCookie], [time.AfterFunc]) are embedded next to it, each just
    as far as the Manager uses it. *)

From Stdlib Require Import ZArith Lia List String Ascii Strings.Byte.
From stdpp Require Import gmap strings list fin_maps.

Local Open Scope string_scope.
Local Open Scope Z_scope.

(** ** Go values *)

(** A Go [string] is a sequence of bytes: Rocq's [string] of 8-bit [ascii].
    A [[]byte] is a [list byte].  Integers are [Z], with the wrap-around of
    the fixed-width types written out where a conversion happens. *)

Definition byte_u (b : byte) : Z := Z.of_N (Byte.to_N b).
Definition ascii_u (c : ascii) : Z := Z.of_N (N_of_ascii c).
Definition ascii_of_u (z : Z) : ascii := ascii_of_N (Z.to_N z).

(** Two's-complement reading of the low [w] bits of [x]. *)
Definition wrap_signed (w : Z) (x : Z) : Z :=
  let m := x mod 2 ^ w in
  if m <? 2 ^ (w - 1) then m else m - 2 ^ w.

Definition int64_range (x : Z) : Prop := - 2 ^ 63 <= x < 2 ^ 63.

(** Go's [int] has the width of the target's word; the development fixes
    the 64-bit targets (amd64, arm64). *)
Definition int_bits : Z := 64.
Definition int_of_int64 (x : Z) : Z := wrap_signed int_bits x.

(** Go's [error] interface: [None] is [nil]. *)
Inductive error_value : Type :=
  | ErrorString (msg : string)
  | ErrUnknownProvide (provideName : string)
      (* fmt.Errorf("session: unknown provide %q (forgotten import?)", provideName) *)
  | EscapeError (fragment : string)
  | ErrNoCookie
  | ErrNotFound
  | ErrExists.

Definition error : Type := option error_value.

(** ** encoding/base64 *)

Module base64.

Definition encodeURL : string :=
  "ABCDEFGHIJKLMNOPQRSTUVWXYZabcdefghijklmnopqrstuvwxyz0123456789-_".

Definition StdPadding : ascii := "="%char.

Record Encoding := {
  encode : string;            (* the 64 characters of the alphabet *)
  padChar : option ascii      (* None is NoPadding *)
}.

Definition URLEncoding : Encoding :=
  {| encode := encodeURL; padChar := Some StdPadding |}.

(** [enc.encode[i]] *)
Definition at_ (enc : Encoding) (i : Z) : ascii :=
  match String.get (Z.to_nat i) (encode enc) with
  | Some c => c
  | None => Ascii.zero
  end.

Definition pad (enc : Encoding) (rest : string) : string :=
  match padChar enc with
  | Some p => String p rest
  | None => rest
  end.

(** [Encoding.Encode]: whole 3-byte groups give four characters each; a
    remainder of one or two bytes gives two or three, then padding. *)
Fixpoint Encode (enc : Encoding) (src : list byte) : string :=
  match src with
  | [] => ""
  | b0 :: b1 :: b2 :: rest =>
      let val := Z.lor (Z.lor (Z.shiftl (byte_u b0) 16)
                              (Z.shiftl (byte_u b1) 8)) (byte_u b2) in
      String (at_ enc (Z.land (Z.shiftr val 18) 63))
     (String (at_ enc (Z.land (Z.shiftr val 12) 63))
     (String (at_ enc (Z.land (Z.shiftr val 6) 63))
     (String (at_ enc (Z.land val 63))
             (Encode enc rest))))
  | [b0; b1] =>
      let val := Z.lor (Z.shiftl (byte_u b0) 16) (Z.shiftl (byte_u b1) 8) in
      String (at_ enc (Z.land (Z.shiftr val 18) 63))
     (String (at_ enc (Z.land (Z.shiftr val 12) 63))
     (String (at_ enc (Z.land (Z.shiftr val 6) 63))
             (pad enc "")))
  | [b0] =>
      let val := Z.shiftl (byte_u b0) 16 in
      String (at_ enc (Z.land (Z.shiftr val 18) 63))
     (String (at_ enc (Z.land (Z.shiftr val 12) 63))
             (pad enc (pad enc "")))
  end.

Definition EncodeToString (enc : Encoding) (src : list byte) : string :=
  Encode enc src.

(** The position of a character in the alphabet (64 when it has none):
    the inverse of [at_], used to state that encoding loses nothing. *)
Fixpoint position (c : ascii) (alphabet : string) : Z :=
  match alphabet with
  | "" => 0
  | String a rest => if Ascii.eqb a c then 0 else 1 + position c rest
  end.

Definition index_of (enc : Encoding) (c : ascii) : Z :=
  position c (encode enc).

End base64.

(** ** net/url: query-component escaping *)

Module url.

Definition in_range (lo hi c : ascii) : bool :=
  (ascii_u lo <=? ascii_u c) && (ascii_u c <=? ascii_u hi).

Definition is_one_of (cs : string) (c : ascii) : bool :=
  existsb (Ascii.eqb c) (list_ascii_of_string cs).

(** [shouldEscape(c, encodeQueryComponent)] *)
Definition shouldEscape (c : ascii) : bool :=
  if in_range "a" "z" c || in_range "A" "Z" c || in_range "0" "9" c
  then false
  else if is_one_of "-_.~" c then false
  else if is_one_of "$&+,/:;=?@" c then true
  else true.

Definition upperhex : string := "0123456789ABCDEF".

Definition hex_at (i : Z) : ascii :=
  match String.get (Z.to_nat i) upperhex with
  | Some c => c
  | None => Ascii.zero
  end.

(** [escape(s, encodeQueryComponent)] *)
Fixpoint escape (s : string) : string :=
  match s with
  | "" => ""
  | String c rest =>
      if Ascii.eqb c " " then String "+" (escape rest)
      else if shouldEscape c then
        String "%" (String (hex_at (Z.shiftr (ascii_u c) 4))
                   (String (hex_at (Z.land (ascii_u c) 15)) (escape rest)))
      else String c (escape rest)
  end.

Definition QueryEscape (s : string) : string := escape s.

(** The characters escaping leaves as they are. *)
Definition unreserved (c : ascii) : bool :=
  negb (Ascii.eqb c " ") && negb (shouldEscape c).

Definition all_unreserved (s : string) : bool :=
  forallb unreserved (list_ascii_of_string s).

(** The characters an escaped string is made of. *)
Definition cookie_safe (c : ascii) : bool :=
  in_range "a" "z" c || in_range "A" "Z" c || in_range "0" "9" c
  || is_one_of "-_.~%+" c.

Definition ishex (c : ascii) : bool :=
  in_range "0" "9" c || in_range "a" "f" c || in_range "A" "F" c.

Definition unhex (c : ascii) : Z :=
  if in_range "0" "9" c then ascii_u c - ascii_u "0"
  else if in_range "a" "f" c then ascii_u c - ascii_u "a" + 10
  else if in_range "A" "F" c then ascii_u c - ascii_u "A" + 10
  else 0.

(** The first three bytes at a malformed escape, as [EscapeError] keeps. *)
Definition fragment (s : string) : string := substring 0 3 s.

(** [unescape(s, encodeQueryComponent)]: the validation pass and the
    rewriting pass of the library folded into one traversal; the result
    is the error at the first malformed [%] or the rewritten string. *)
Fixpoint unescape (s : string) : error_value + string :=
  match s with
  | "" => inr ""
  | String c rest =>
      if Ascii.eqb c "%" then
        match rest with
        | String h1 (String h2 rest') =>
            if ishex h1 && ishex h2 then
              match unescape rest' with
              | inr t =>
                  inr (String (ascii_of_u
                         (Z.lor (Z.shiftl (unhex h1) 4) (unhex h2))) t)
              | inl e => inl e
              end
            else inl (EscapeError (fragment s))
        | _ => inl (EscapeError (fragment s))
        end
      else
        match unescape rest with
        | inr t => inr (String (if Ascii.eqb c "+" then " "%char else c) t)
        | inl e => inl e
        end
  end.

Definition QueryUnescape (s : string) : string * error :=
  match unescape s with
  | inr t => (t, None)
  | inl e => ("", Some e)
  end.

End url.

(** ** net/http: cookies of a request, cookies set on a response *)

Module http.

(** [http.Cookie]; the zero [time.Time] of [Expires] is [None], a set
    one is its instant in nanoseconds. *)
Record Cookie := {
  Name : string;
  Value : string;
  Path : string;
  Domain : string;
  Expires : option Z;
  MaxAge : Z;
  Secure : bool;
  HttpOnly : bool
}.

(** A request, as far as the Manager reads it: the cookies of its
    [Cookie] headers, in the order they were sent. *)
Record Request := { Cookies : list Cookie }.

(** [Request.Cookie(name)]: the first cookie of that name, or
    [ErrNoCookie]; the empty name never matches. *)
Definition Request_Cookie (r : Request) (name : string) : error_value + Cookie :=
  if String.eqb name "" then inl ErrNoCookie
  else match find (fun c => String.eqb (Name c) name) (Cookies r) with
       | Some c => inr c
       | None => inl ErrNoCookie
       end.

(** The two ways the Manager's test [err != nil || cookie.Value == ""]
    can go. *)
Definition cookie_absent_or_empty (r : Request) (name : string) : Prop :=
  match Request_Cookie r name with
  | inl _ => True
  | inr c => Value c = ""
  end.

Definition cookie_present (r : Request) (name : string) (c : Cookie) : Prop :=
  Request_Cookie r name = inr c /\ Value c <> "".

(** A [ResponseWriter], as far as the Manager writes it: the cookies
    handed to [http.SetCookie], each one [Set-Cookie] header, oldest
    first. *)
Definition ResponseWriter : Type := list Cookie.

Definition SetCookie (w : ResponseWriter) (cookie : Cookie) : ResponseWriter :=
  (w ++ [cookie])%list.

End http.

(** ** time: durations and one-shot timers *)

Module time.

(** [time.Duration] is an [int64] count of nanoseconds. *)
Definition Duration : Type := Z.
Definition Nanosecond : Duration := 1.
Definition Second : Duration := 1000000000 * Nanosecond.

(** The conversion [time.Duration(x)] of an [int64]: same width, same
    value. *)
Definition Duration_of_int64 (x : Z) : Duration := x.

(** A timer armed by [time.AfterFunc(d, f)]; [F] is the type of the
    captured variables of the closure [f]. *)
Record Timer (F : Type) := AfterFunc { d : Duration; f : F }.
Arguments AfterFunc {F} d f.
Arguments d {F} t.
Arguments f {F} t.

End time.

(** ** Provider: the storage backend behind the Manager *)

(** The [Provider] interface.  A backend keeps its sessions in a state of
    type [St]; every method takes the state and returns the next one.  A
    [Session] interface value returned by a backend is a handle of type [H]
    into that state, [None] when it is [nil]. *)
Record Provider (St H : Type) := {
  SessionInit : string -> St -> (option H * error) * St;
  SessionRead : string -> St -> (option H * error) * St;
  SessionDestroy : string -> St -> error * St;
  SessionGC : Z -> St -> St
}.
Arguments SessionInit {St H} p sid st.
Arguments SessionRead {St H} p sid st.
Arguments SessionDestroy {St H} p sid st.
Arguments SessionGC {St H} p maxLifeTime st.

(** The [Session] interface, for handles of type [H] into a state [St],
    with keys [K] and values [V]; a [nil] value returned by [Get] is
    [None]. *)
Record Session (St H K V : Type) := {
  Set_ : H -> K -> V -> St -> error * St;
  Get : H -> K -> St -> option V * St;
  Delete : H -> K -> St -> error * St;
  SessionID : H -> St -> string
}.
Arguments Set_ {St H K V} s h key value st.
Arguments Get {St H K V} s h key st.
Arguments Delete {St H K V} s h key st.
Arguments SessionID {St H K V} s h st.

(** A call either returns or panics. *)
Inductive outcome (A : Type) : Type :=
  | Returned (a : A)
  | Panicked (msg : string).
Arguments Returned {A} a.
Arguments Panicked {A} msg.

(** [Register]: the package variable [providers] is passed in and the
    updated map returned.  A [nil] provider is [None]. *)
Definition Register {St H} (name : string) (provider : option (Provider St H))
    (providers : gmap string (Provider St H)) : outcome (gmap string (Provider St H)) :=
  match provider with
  | None => Panicked "session: Register provider is nil"
  | Some p =>
      match providers !! name with
      | Some _ => Panicked ("session: Register called twice for provider " ++ name)
      | None => Returned (<[name := p]> providers)
      end
  end.

(** ** Manager *)

(** The [lock] field is not represented: the body of each method below is
    one step on the state, which is what holding the mutex gives. *)
Record Manager (St H : Type) := {
  cookieName : string;
  provider : Provider St H;
  maxLifeTime : Z
}.
Arguments cookieName {St H} m.
Arguments provider {St H} m.
Arguments maxLifeTime {St H} m.

Definition NewManager {St H} (providers : gmap string (Provider St H))
    (provideName cookieName : string) (maxLifeTime : Z)
    : option (Manager St H) * error :=
  match providers !! provideName with
  | None => (None, Some (ErrUnknownProvide provideName))
  | Some provider =>
      (Some {| provider := provider; cookieName := cookieName;
               maxLifeTime := maxLifeTime |}, None)
  end.

(** The outcome of [crypto/rand.Read] on a buffer of the given length: the
    bytes that fill it, or [None] when the read returns an error. *)
Definition RandReader : Type := nat -> option (list byte).

(** What the Manager's methods act on besides the request and the
    response: the backend's state and the timers armed so far. *)
Record World (St H : Type) := {
  backend : St;
  timers : list (time.Timer (Manager St H))
}.
Arguments backend {St H} w.
Arguments timers {St H} w.

Module manager.

Import http.

Definition sessionID {St H} (m : Manager St H) (rand_Read : RandReader) : string :=
  match rand_Read 32%nat with
  | None => ""
  | Some b => base64.EncodeToString base64.URLEncoding b
  end.

Definition SessionStart {St H} (m : Manager St H) (rand_Read : RandReader)
    (w : ResponseWriter) (r : Request) (st : St)
    : option H * ResponseWriter * St :=
  let fresh :=
    let sid := sessionID m rand_Read in
    let '(session, _, st') := SessionInit (provider m) sid st in
    let cookie := {| Name := cookieName m;
                     Value := url.QueryEscape sid;
                     Path := "/";
                     Domain := "";
                     Expires := None;
                     MaxAge := int_of_int64 (maxLifeTime m);
                     Secure := false;
                     HttpOnly := true |} in
    (session, SetCookie w cookie, st') in
  match Request_Cookie r (cookieName m) with
  | inl _ => fresh
  | inr cookie =>
      if String.eqb (Value cookie) "" then fresh
      else
        let '(sid, _) := url.QueryUnescape (Value cookie) in
        let '(session, _, st') := SessionRead (provider m) sid st in
        (session, w, st')
  end.

(** [now] is what [time.Now()] returns during the call. *)
Definition SessionDestroy {St H} (m : Manager St H) (now : Z)
    (w : ResponseWriter) (r : Request) (st : St) : ResponseWriter * St :=
  match Request_Cookie r (cookieName m) with
  | inl _ => (w, st)
  | inr cookie =>
      if String.eqb (Value cookie) "" then (w, st)
      else
        let '(_, st') := SessionDestroy (provider m) (Value cookie) st in
        let expiration := now in
        let cookie := {| Name := cookieName m;
                         Value := "";
                         Path := "/";
                         Domain := "";
                         Expires := Some expiration;
                         MaxAge := -1;
                         Secure := false;
                         HttpOnly := true |} in
        (SetCookie w cookie, st')
  end.

(** One invocation of [GC]: the backend's sweep, then a timer whose
    closure captures the manager. *)
Definition GC {St H} (m : Manager St H) (wd : World St H) : World St H :=
  {| backend := SessionGC (provider m) (maxLifeTime m) (backend wd);
     timers := (timers wd ++
               [time.AfterFunc (time.Duration_of_int64 (maxLifeTime m)) m])%list |}.

(** The closure handed to [time.AfterFunc]: [func() { manager.GC() }]. *)
Definition fire {St H} (t : time.Timer (Manager St H)) (wd : World St H)
    : World St H :=
  GC (time.f t) wd.

End manager.

(** The cookie [SessionStart] issues for a new session [sid], and the one
    [SessionDestroy] answers with at the instant [now]. *)
Definition issued_cookie {St H} (m : Manager St H) (sid : string) : http.Cookie :=
  {| http.Name := cookieName m;
     http.Value := url.QueryEscape sid;
     http.Path := "/";
     http.Domain := "";
     http.Expires := None;
     http.MaxAge := int_of_int64 (maxLifeTime m);
     http.Secure := false;
     http.HttpOnly := true |}.

Definition expired_cookie {St H} (m : Manager St H) (now : Z) : http.Cookie :=
  {| http.Name := cookieName m;
     http.Value := "";
     http.Path := "/";
     http.Domain := "";
     http.Expires := Some now;
     http.MaxAge := -1;
     http.Secure := false;
     http.HttpOnly := true |}.

(** ** A Provider that records its calls *)

(** Any backend can be wrapped so that it also keeps the list of the calls
    it received, oldest first; the wrapper is itself a [Provider]. *)
Module spy.

Inductive Call : Type :=
  | Init (sid : string)
  | Read (sid : string)
  | Destroy (sid : string)
  | Sweep (maxLifeTime : Z).

Definition traced {St H} (p : Provider St H) : Provider (St * list Call) H :=
  {| SessionInit sid st :=
       let '(res, st') := SessionInit p sid (fst st) in
       (res, (st', (snd st ++ [Init sid])%list));
     SessionRead sid st :=
       let '(res, st') := SessionRead p sid (fst st) in
       (res, (st', (snd st ++ [Read sid])%list));
     SessionDestroy sid st :=
       let '(res, st') := SessionDestroy p sid (fst st) in
       (res, (st', (snd st ++ [Destroy sid])%list));
     SessionGC maxLifeTime st :=
       (SessionGC p maxLifeTime (fst st),
        (snd st ++ [Sweep maxLifeTime])%list) |}.

Definition traced_manager {St H} (m : Manager St H) : Manager (St * list Call) H :=
  {| cookieName := cookieName m;
     provider := traced (provider m);
     maxLifeTime := maxLifeTime m |}.

End spy.

(** ** The memory backend *)

Module memory.

Section Store.

Context {K : Type} `{Countable K} {V : Type}.

(** Modelled from the spec: the SessionStore of the memory backend
    (package [providers/memory], which the demo imports and which is
    not among the sources): a unique identifier, a last-access
    timestamp, and a mapping from keys to values. *)
Record SessionStore := {
  sid : string;
  lastAccessed : Z;
  values : gmap K V
}.

(** Modelled from the spec: the session-handle operations of the
    memory backend on the store a handle refers to.  [lastAccessed] is
    updated every time the store is read or written; [now] is the
    time of the call. *)
Definition store_set (now : Z) (key : K) (value : V) (s : SessionStore)
    : SessionStore :=
  {| sid := sid s; lastAccessed := now; values := <[key := value]> (values s) |}.

Definition store_get (now : Z) (key : K) (s : SessionStore)
    : option V * SessionStore :=
  (values s !! key,
   {| sid := sid s; lastAccessed := now; values := values s |}).

Definition store_delete (now : Z) (key : K) (s : SessionStore)
    : SessionStore :=
  {| sid := sid s; lastAccessed := now; values := delete key (values s) |}.

(** Modelled from the spec: the memory backend's registry: a mapping
    from identifier to SessionStore, plus the identifiers ordered by
    recency, least recently used first.  [clock] is the current time,
    in the unit of [maxLifetime]. *)
Record State := {
  sessions : gmap string SessionStore;
  recency : list string;
  clock : Z
}.

Definition empty (now : Z) : State :=
  {| sessions := ∅; recency := []; clock := now |}.

Definition tick (dt : Z) (st : State) : State :=
  {| sessions := sessions st; recency := recency st; clock := clock st + dt |}.

Definition forget (id : string) (ids : list string) : list string :=
  filter (fun i => negb (String.eqb i id)) ids.

(** Puts [s] under [id] as the most recently used entry. *)
Definition store (id : string) (s : SessionStore) (st : State) : State :=
  {| sessions := <[id := s]> (sessions st);
     recency := (forget id (recency st) ++ [id])%list;
     clock := clock st |}.

(** Modelled from the spec: [init(id)] creates and stores a new empty
    SessionStore under [id], and fails if [id] collides with an
    existing entry. *)
Definition init (id : string) (st : State) : (option string * error) * State :=
  match sessions st !! id with
  | Some _ => ((None, Some ErrExists), st)
  | None =>
      ((Some id, None),
       store id {| sid := id; lastAccessed := clock st; values := ∅ |} st)
  end.

(** Modelled from the spec: [read(id)] returns the existing store for
    [id], refreshing [lastAccessed], or signals NotFound. *)
Definition read (id : string) (st : State) : (option string * error) * State :=
  match sessions st !! id with
  | Some s =>
      ((Some id, None),
       store id {| sid := sid s; lastAccessed := clock st; values := values s |} st)
  | None => ((None, Some ErrNotFound), st)
  end.

(** Modelled from the spec: [destroy(id)] removes the store for [id]
    and signals NotFound if absent. *)
Definition destroy (id : string) (st : State) : error * State :=
  match sessions st !! id with
  | Some _ =>
      (None, {| sessions := delete id (sessions st);
                recency := forget id (recency st);
                clock := clock st |})
  | None => (Some ErrNotFound, st)
  end.

(** Modelled from the spec: [gc(maxLifetime)] walks the recency order
    from the least recently used end, removes the entries whose
    [lastAccessed] is older than [now - maxLifetime], and stops at the
    first entry that is not expired. *)
Fixpoint sweep (cutoff : Z) (ids : list string)
    (m : gmap string SessionStore) : list string * gmap string SessionStore :=
  match ids with
  | [] => ([], m)
  | id :: rest =>
      match m !! id with
      | Some s =>
          if lastAccessed s <? cutoff then sweep cutoff rest (delete id m)
          else (ids, m)
      | None => sweep cutoff rest m
      end
  end.

Definition gc (maxLifetime : Z) (st : State) : State :=
  let '(ids, m) := sweep (clock st - maxLifetime) (recency st) (sessions st) in
  {| sessions := m; recency := ids; clock := clock st |}.

Definition Provider : Provider State string :=
  {| SessionInit := init; SessionRead := read;
     SessionDestroy := destroy; SessionGC := gc |}.

(** Modelled from the spec: a Session handle is a reference into the
    state the backend owns, here the identifier of the store; an
    operation through a handle whose store is gone finds nothing. *)
Definition handle_Set (h : string) (key : K) (value : V) (st : State)
    : error * State :=
  match sessions st !! h with
  | Some s => (None, store h (store_set (clock st) key value s) st)
  | None => (Some ErrNotFound, st)
  end.

Definition handle_Get (h : string) (key : K) (st : State) : option V * State :=
  match sessions st !! h with
  | Some s =>
      let '(v, s') := store_get (clock st) key s in (v, store h s' st)
  | None => (None, st)
  end.

Definition handle_Delete (h : string) (key : K) (st : State) : error * State :=
  match sessions st !! h with
  | Some s => (None, store h (store_delete (clock st) key s) st)
  | None => (Some ErrNotFound, st)
  end.

Definition handle_SessionID (h : string) (st : State) : string := h.

Definition Session : Session State string K V :=
  {| Set_ := handle_Set; Get := handle_Get;
     Delete := handle_Delete; SessionID := handle_SessionID |}.

End Store.

Arguments SessionStore K {_ _} V.
Arguments State K {_ _} V.

End memory.

(** ** The demo program *)

(** [demo/main.go]: the memory backend registers itself under the name
    ["memory"], and [init] builds the global Manager from it. *)
Module demo.

Definition State : Type := memory.State string string.

Definition providers : gmap string (Provider State string) :=
  match Register "memory" (Some memory.Provider) ∅ with
  | Returned reg => reg
  | Panicked _ => ∅
  end.

Definition globalSessions : Manager State string :=
  match NewManager providers "memory" "gosessionid" 30 with
  | (Some m, _) => m
  | (None, _) =>
      {| cookieName := ""; provider := memory.Provider; maxLifeTime := 0 |}
  end.

(** A random source that fills the buffer with zero bytes, and one whose
    read fails. *)
Definition zero_reader : RandReader := fun n => Some (repeat x00 n).
Definition failing_reader : RandReader := fun _ => None.

(** A first request, without cookies, and the request a client sends
    back once it holds the cookies of a response. *)
Definition first_request : http.Request := {| http.Cookies := [] |}.
Definition request_with (cookies : http.ResponseWriter) : http.Request :=
  {| http.Cookies := cookies |}.

End demo.

(** ** html/template and regexp, as the demo's handler uses them *)

Module template.

(** [HTMLEscape]: the five characters of HTML syntax become entities and
    the NUL byte becomes U+FFFD (three bytes in UTF-8); every other byte
    is kept. *)
Definition escape_byte (c : ascii) : string :=
  if ascii_u c =? 34 then "&#34;"
  else if ascii_u c =? 39 then "&#39;"
  else if ascii_u c =? 38 then "&amp;"
  else if ascii_u c =? 60 then "&lt;"
  else if ascii_u c =? 62 then "&gt;"
  else if ascii_u c =? 0 then
    String (ascii_of_u 239) (String (ascii_of_u 191) (String (ascii_of_u 189) ""))
  else String c "".

Fixpoint HTMLEscapeString (s : string) : string :=
  match s with
  | "" => ""
  | String c rest => (escape_byte c ++ HTMLEscapeString rest)%string
  end.

(** The bytes HTML gives a meaning to: the quotes, [<], [>] and NUL. *)
Definition markup (c : ascii) : bool :=
  (ascii_u c =? 34) || (ascii_u c =? 39) || (ascii_u c =? 60)
  || (ascii_u c =? 62) || (ascii_u c =? 0).

End template.

Module regexp.

(** [regexp.MatchString("^[a-z]{3}$", s)]: the whole text is three
    letters between [a] and [z]. *)
Definition MatchString_az3 (s : string) : bool :=
  match s with
  | String a (String b (String c "")) =>
      url.in_range "a" "z" a && url.in_range "a" "z" b && url.in_range "a" "z" c
  | _ => false
  end.

End regexp.

(** ** The demo's login handler *)

Module handler.

(** The request as [login] reads it: its cookies, its method, and the
    form values [r.ParseForm()] leaves in [r.Form]. *)
Record Request := {
  request : http.Request;
  Method : string;
  Form : gmap string (list string)
}.

(** The response as [login] writes it: the cookies set, the header
    fields set, and the body written so far. *)
Record Response := {
  cookies : http.ResponseWriter;
  header : list (string * string);
  body : string
}.

Definition Write (w : Response) (data : string) : Response :=
  {| cookies := cookies w; header := header w;
     body := (body w ++ data)%string |}.

Definition Header_Set (w : Response) (key value : string) : Response :=
  {| cookies := cookies w;
     header := (filter (fun kv => negb (String.eqb (fst kv) key)) (header w)
                ++ [(key, value)])%list;
     body := body w |}.

(** Where a call of [login] ends: the response, the backend's state, what
    [fmt.Printf] printed, and the panic that ended it, if one did.  What
    [log.Println] writes is not represented. *)
Record Result (St : Type) := {
  response : Response;
  state : St;
  printed : list string;
  panicked : option string
}.
Arguments response {St} r.
Arguments state {St} r.
Arguments printed {St} r.
Arguments panicked {St} r.

Definition nil_dereference : string :=
  "runtime error: invalid memory address or nil pointer dereference".
Definition index_out_of_range : string :=
  "runtime error: index out of range [0] with length 0".

(** [r.Form[key][0]] *)
Definition first_value (form : gmap string (list string)) (key : string)
    : outcome string :=
  match form !! key with
  | Some (v :: _) => Returned v
  | _ => Panicked index_out_of_range
  end.

(** The statement after the branches of the POST path:
    [fmt.Printf("username:%s; password:%s\n", ...)]. *)
Definition print_credentials {St} (w : Response) (r : Request) (st : St)
    (username : string) : Result St :=
  match first_value (Form r) "password" with
  | Panicked msg =>
      {| response := w; state := st; printed := []; panicked := Some msg |}
  | Returned password =>
      {| response := w; state := st;
         printed := [("username:" ++ username ++ "; password:"
                      ++ template.HTMLEscapeString password
                      ++ String (ascii_of_u 10) "")%string];
         panicked := None |}
  end.

(** [login]; [ParseFiles] is what [template.ParseFiles] returns for the
    template file: an error, or the template as the function from the
    data it is executed on to the text it writes. *)
Definition login {St H} (globalSessions : Manager St H)
    (S : Session St H string string) (rand_Read : RandReader)
    (ParseFiles : error_value + (option string -> string))
    (w : Response) (r : Request) (st : St) : Result St :=
  let '(sess, set_cookies, st1) :=
    manager.SessionStart globalSessions rand_Read (cookies w) (request r) st in
  let w1 := {| cookies := set_cookies; header := header w; body := body w |} in
  if String.eqb (Method r) "GET" then
    match ParseFiles with
    | inl _ =>
        {| response := Write w1 "Something wrong."; state := st1;
           printed := []; panicked := None |}
    | inr t =>
        let w2 := Header_Set w1 "Content-Type" "text/html" in
        match sess with
        | None =>
            {| response := w2; state := st1; printed := [];
               panicked := Some nil_dereference |}
        | Some h =>
            let '(username, st2) := Get S h "username" st1 in
            let w3 := Write w2 (t username) in
            let '(_, st3) := Get S h "username" st2 in
            {| response := w3; state := st3; printed := [];
               panicked := None |}
        end
    end
  else
    match first_value (Form r) "username" with
    | Panicked msg =>
        {| response := w1; state := st1; printed := [];
           panicked := Some msg |}
    | Returned username =>
        if (String.length username =? 0)%nat then
          print_credentials (Write w1 "the username can not be null") r st1
            username
        else if negb (regexp.MatchString_az3 username) then
          print_credentials (Write w1 "the username is invalid") r st1
            username
        else
          match sess with
          | None =>
              {| response := w1; state := st1; printed := [];
                 panicked := Some nil_dereference |}
          | Some h =>
              let '(_, st2) := Set_ S h "username" username st1 in
              match first_value (Form r) "password" with
              | Panicked msg =>
                  {| response := w1; state := st2; printed := [];
                     panicked := Some msg |}
              | Returned password =>
                  print_credentials
                    (Write w1 ("log in successfully: "
                               ++ template.HTMLEscapeString password)%string)
                    r st2 username
              end
          end
    end.

End handler.

(** ** The timer runtime *)

Module runtime.

(** The runtime takes a timer that is due, drops it and runs its closure:
    here the timer that was armed first. *)
Definition fire_next {St H} (wd : World St H) : World St H :=
  match timers wd with
  | [] => wd
  | t :: rest => manager.fire t {| backend := backend wd; timers := rest |}
  end.

Fixpoint run {St H} (n : nat) (wd : World St H) : World St H :=
  match n with
  | O => wd
  | S n' => run n' (fire_next wd)
  end.

End runtime.

(** * Facts about the library functions *)

Section Enumeration.

(** A property of the integers below a constant, checked by running
    through them. *)
Lemma below_forallb (n : nat) (P : Z -> bool) :
  forallb (fun k => P (Z.of_nat k)) (seq 0 n) = true ->
  forall i, 0 <= i < Z.of_nat n -> P i = true.
Proof.
  intros Hall i Hi.
  rewrite forallb_forall in Hall.
  specialize (Hall (Z.to_nat i)).
  rewrite Z2Nat.id in Hall by lia.
  apply Hall, in_seq. lia.
Qed.

End Enumeration.

Lemma byte_u_range (b : byte) : 0 <= byte_u b < 256.
Proof.
  unfold byte_u. pose proof (Byte.to_N_bounded b). lia.
Qed.

Lemma byte_u_inj (a b : byte) : byte_u a = byte_u b -> a = b.
Proof.
  unfold byte_u. intros E. apply N2Z.inj in E.
  pose proof (Byte.of_to_N a) as Ha. pose proof (Byte.of_to_N b) as Hb.
  rewrite E in Ha. congruence.
Qed.

Module url_facts.

Import url.

Lemma unescape_escape_char (c : ascii) (rest : string) :
  unescape (escape (String c rest)) =
  match unescape (escape rest) with
  | inr t => inr (String c t)
  | inl e => inl e
  end.
Proof. destruct c as [[] [] [] [] [] [] [] []]; reflexivity. Qed.

(** Unescaping undoes escaping. *)
Lemma unescape_escape (s : string) : unescape (escape s) = inr s.
Proof.
  induction s as [|c rest IH]; [reflexivity|].
  rewrite unescape_escape_char, IH. reflexivity.
Qed.

Lemma QueryUnescape_QueryEscape (s : string) :
  QueryUnescape (QueryEscape s) = (s, None).
Proof. unfold QueryUnescape, QueryEscape. now rewrite unescape_escape. Qed.

Lemma escape_unreserved_char (c : ascii) (rest : string) :
  unreserved c = true -> escape (String c rest) = String c (escape rest).
Proof.
  unfold unreserved. intros Hc. apply andb_prop in Hc as [Hsp Hesc].
  apply negb_true_iff in Hsp, Hesc. simpl. now rewrite Hsp, Hesc.
Qed.

Lemma escape_app_unreserved (body rest : string) :
  all_unreserved body = true ->
  escape (body ++ rest) = (body ++ escape rest)%string.
Proof.
  unfold all_unreserved.
  induction body as [|c body IH]; intros Hall; [reflexivity|].
  cbn [list_ascii_of_string forallb] in Hall.
  apply andb_prop in Hall as [Hc Hbody].
  change (String c body ++ rest)%string with (String c (body ++ rest)).
  rewrite escape_unreserved_char by exact Hc.
  now rewrite IH.
Qed.

End url_facts.

Module base64_facts.

Import base64.

(** Joining a high part and a low part that share no bit adds them. *)
Lemma lor_high_low (hi lo n : Z) :
  0 <= n -> 0 <= lo < 2 ^ n -> Z.lor (hi * 2 ^ n) lo = hi * 2 ^ n + lo.
Proof.
  intros Hn Hlo.
  assert (Hdisj : Z.land (hi * 2 ^ n) lo = 0).
  { rewrite <- Z.shiftl_mul_pow2 by exact Hn.
    apply Z.bits_inj'. intros k Hk.
    rewrite Z.land_spec, Z.bits_0.
    destruct (Z.lt_ge_cases k n) as [Hlt|Hge].
    - now rewrite Z.shiftl_spec_low.
    - rewrite <- (Z.mod_small lo (2 ^ n)) by exact Hlo.
      rewrite Z.mod_pow2_bits_high by lia.
      apply andb_false_r. }
  now rewrite <- Z.lxor_lor, <- Z.add_nocarry_lxor.
Qed.

(** The 24-bit group of three bytes, as a sum. *)
Lemma group2_value (b0 b1 : byte) :
  Z.lor (Z.shiftl (byte_u b0) 16) (Z.shiftl (byte_u b1) 8)
  = byte_u b0 * 65536 + byte_u b1 * 256.
Proof.
  pose proof (byte_u_range b0). pose proof (byte_u_range b1).
  rewrite !Z.shiftl_mul_pow2 by lia.
  rewrite lor_high_low; change (2 ^ 16) with 65536; change (2 ^ 8) with 256; lia.
Qed.

Lemma group3_value (b0 b1 b2 : byte) :
  Z.lor (Z.lor (Z.shiftl (byte_u b0) 16) (Z.shiftl (byte_u b1) 8)) (byte_u b2)
  = byte_u b0 * 65536 + byte_u b1 * 256 + byte_u b2.
Proof.
  pose proof (byte_u_range b0). pose proof (byte_u_range b1).
  pose proof (byte_u_range b2).
  rewrite group2_value.
  replace (byte_u b0 * 65536 + byte_u b1 * 256)
    with ((byte_u b0 * 256 + byte_u b1) * 2 ^ 8) by lia.
  rewrite lor_high_low; change (2 ^ 8) with 256; lia.
Qed.

(** The 6-bit digit at bit [k] of [v]. *)
Lemma digit_value (v k : Z) :
  0 <= k -> Z.land (Z.shiftr v k) 63 = (v / 2 ^ k) mod 64.
Proof.
  intros Hk. rewrite Z.shiftr_div_pow2 by exact Hk.
  change 63 with (Z.ones 6). now rewrite Z.land_ones by lia.
Qed.

Lemma digit0_value (v : Z) : Z.land v 63 = v mod 64.
Proof. change 63 with (Z.ones 6). now rewrite Z.land_ones by lia. Qed.

Lemma digit_range (v : Z) : 0 <= Z.land v 63 < 64.
Proof. rewrite digit0_value. apply Z.mod_pos_bound. lia. Qed.

End base64_facts.

Module base64_shape.

Import base64 base64_facts.

Lemma list_ind3 {A : Type} (P : list A -> Prop) :
  P [] ->
  (forall a, P [a]) ->
  (forall a b, P [a; b]) ->
  (forall a b c l, P l -> P (a :: b :: c :: l)) ->
  forall l, P l.
Proof.
  intros H0 H1 H2 Hstep l.
  assert (Hall : P l /\ (forall a, P (a :: l)) /\ (forall a b, P (a :: b :: l))).
  { induction l as [|x l (IH0 & IH1 & IH2)].
    - repeat split; auto.
    - repeat split; auto. }
  apply Hall.
Qed.

Lemma Encode_group (enc : Encoding) (b0 b1 b2 : byte) (rest : list byte) :
  Encode enc (b0 :: b1 :: b2 :: rest) =
  let val := byte_u b0 * 65536 + byte_u b1 * 256 + byte_u b2 in
  String (at_ enc ((val / 2 ^ 18) mod 64))
 (String (at_ enc ((val / 2 ^ 12) mod 64))
 (String (at_ enc ((val / 2 ^ 6) mod 64))
 (String (at_ enc (val mod 64)) (Encode enc rest)))).
Proof.
  cbn [Encode]. cbv zeta.
  rewrite !digit_value by lia. rewrite digit0_value.
  now rewrite group3_value.
Qed.

Lemma Encode_two (enc : Encoding) (b0 b1 : byte) :
  Encode enc [b0; b1] =
  let val := byte_u b0 * 65536 + byte_u b1 * 256 in
  String (at_ enc ((val / 2 ^ 18) mod 64))
 (String (at_ enc ((val / 2 ^ 12) mod 64))
 (String (at_ enc ((val / 2 ^ 6) mod 64)) (pad enc ""))).
Proof.
  cbn [Encode]. cbv zeta.
  rewrite !digit_value by lia.
  now rewrite group2_value.
Qed.

Lemma Encode_one (enc : Encoding) (b0 : byte) :
  Encode enc [b0] =
  let val := byte_u b0 * 65536 in
  String (at_ enc ((val / 2 ^ 18) mod 64))
 (String (at_ enc ((val / 2 ^ 12) mod 64)) (pad enc (pad enc ""))).
Proof.
  cbn [Encode]. cbv zeta.
  rewrite !digit_value by lia.
  now rewrite Z.shiftl_mul_pow2 by lia.
Qed.

(** Every character of the URL alphabet is one that query escaping
    leaves alone. *)
Lemma at_unreserved (i : Z) :
  0 <= i < 64 -> url.unreserved (at_ URLEncoding i) = true.
Proof.
  apply (below_forallb 64 (fun i => url.unreserved (at_ URLEncoding i))).
  vm_compute. reflexivity.
Qed.

Lemma index_at (i : Z) :
  0 <= i < 64 -> index_of URLEncoding (at_ URLEncoding i) = i.
Proof.
  intros Hi. apply Z.eqb_eq. revert i Hi.
  apply (below_forallb 64
           (fun i => index_of URLEncoding (at_ URLEncoding i) =? i)).
  vm_compute. reflexivity.
Qed.

Lemma at_inj (i j : Z) :
  0 <= i < 64 -> 0 <= j < 64 ->
  at_ URLEncoding i = at_ URLEncoding j -> i = j.
Proof.
  intros Hi Hj E.
  rewrite <- (index_at i Hi), <- (index_at j Hj). now rewrite E.
Qed.

Lemma mod64_range (x : Z) : 0 <= x mod 64 < 64.
Proof. apply Z.mod_pos_bound. lia. Qed.

(** A 24-bit value is determined by its four 6-bit digits. *)
Lemma digits_inj (v v' : Z) :
  0 <= v < 16777216 -> 0 <= v' < 16777216 ->
  (v / 2 ^ 18) mod 64 = (v' / 2 ^ 18) mod 64 ->
  (v / 2 ^ 12) mod 64 = (v' / 2 ^ 12) mod 64 ->
  (v / 2 ^ 6) mod 64 = (v' / 2 ^ 6) mod 64 ->
  v mod 64 = v' mod 64 ->
  v = v'.
Proof.
  change (2 ^ 18) with 262144. change (2 ^ 12) with 4096.
  change (2 ^ 6) with 64.
  intros Hv Hv' E0 E1 E2 E3.
  Z.div_mod_to_equations. lia.
Qed.

End base64_shape.

Module base64_encode.

Import base64 base64_facts base64_shape.

(** A source of [3k + 2] bytes encodes to [4k + 3] characters of the
    alphabet followed by one padding character. *)
Lemma Encode_remainder_two (src : list byte) :
  forall k : nat, length src = (3 * k + 2)%nat ->
  exists body : string,
    Encode URLEncoding src = (body ++ "=")%string /\
    String.length body = (4 * k + 3)%nat /\
    url.all_unreserved body = true.
Proof.
  induction src as [| a | a b | a b c rest IH] using list_ind3;
    intros k Hlen; cbn [length] in Hlen; try lia.
  - assert (k = 0%nat) by lia. subst k.
    rewrite Encode_two. cbv zeta.
    eexists (String _ (String _ (String _ ""))).
    split; [reflexivity|]. split; [reflexivity|].
    unfold url.all_unreserved. cbn [list_ascii_of_string forallb].
    rewrite !at_unreserved by apply mod64_range. reflexivity.
  - destruct k as [|k]; [lia|].
    destruct (IH k ltac:(lia)) as (body & Hbody & Hlenb & Hall).
    rewrite Encode_group. cbv zeta. rewrite Hbody.
    eexists (String _ (String _ (String _ (String _ body)))).
    split; [reflexivity|]. split.
    + cbn [String.length]. lia.
    + unfold url.all_unreserved in *. cbn [list_ascii_of_string forallb].
      rewrite !at_unreserved by apply mod64_range. exact Hall.
Qed.

Lemma bytes_of_value (a b c a' b' c' : byte) :
  byte_u a * 65536 + byte_u b * 256 + byte_u c
  = byte_u a' * 65536 + byte_u b' * 256 + byte_u c' ->
  a = a' /\ b = b' /\ c = c'.
Proof.
  pose proof (byte_u_range a). pose proof (byte_u_range b).
  pose proof (byte_u_range c). pose proof (byte_u_range a').
  pose proof (byte_u_range b'). pose proof (byte_u_range c').
  intros E. repeat split; apply byte_u_inj; lia.
Qed.

Ltac digits_equal :=
  repeat match goal with
  | E : at_ URLEncoding _ = at_ URLEncoding _ |- _ =>
      apply at_inj in E; [| apply mod64_range | apply mod64_range]
  end.

Ltac digits_arith :=
  change (2 ^ 18) with 262144 in *; change (2 ^ 12) with 4096 in *;
  change (2 ^ 6) with 64 in *;
  Z.div_mod_to_equations; lia.

(** Encoding loses nothing: sources of one length with one encoding are
    one source. *)
Lemma Encode_inj (src src' : list byte) :
  length src = length src' ->
  Encode URLEncoding src = Encode URLEncoding src' ->
  src = src'.
Proof.
  revert src'.
  induction src as [| a | a b | a b c rest IH] using list_ind3;
    intros src' Hlen E.
  - destruct src'; [reflexivity | discriminate].
  - destruct src' as [|a' [|? ?]]; try discriminate.
    rewrite !Encode_one in E. cbv zeta in E.
    injection E as E0 E1. digits_equal.
    pose proof (byte_u_range a). pose proof (byte_u_range a').
    f_equal. apply byte_u_inj. digits_arith.
  - destruct src' as [|a' [|b' [|? ?]]]; try discriminate.
    rewrite !Encode_two in E. cbv zeta in E.
    injection E as E0 E1 E2. digits_equal.
    pose proof (byte_u_range a). pose proof (byte_u_range a').
    pose proof (byte_u_range b). pose proof (byte_u_range b').
    assert (byte_u a = byte_u a' /\ byte_u b = byte_u b') as [Ea Eb]
      by digits_arith.
    apply byte_u_inj in Ea, Eb. now subst.
  - destruct src' as [|a' [|b' [|c' rest']]]; try discriminate.
    rewrite !Encode_group in E. cbv zeta in E.
    injection E as E0 E1 E2 E3 Erest. digits_equal.
    pose proof (byte_u_range a). pose proof (byte_u_range a').
    pose proof (byte_u_range b). pose proof (byte_u_range b').
    pose proof (byte_u_range c). pose proof (byte_u_range c').
    destruct (bytes_of_value a b c a' b' c') as (-> & -> & ->).
    { apply digits_inj; try lia; assumption. }
    f_equal. f_equal. f_equal. apply IH; [|exact Erest].
    cbn [length] in Hlen. lia.
Qed.

End base64_encode.

(** * Facts about the Manager *)

Lemma wrap_signed_int64 (x : Z) : int64_range x -> int_of_int64 x = x.
Proof.
  unfold int64_range, int_of_int64, wrap_signed, int_bits.
  change (2 ^ (64 - 1)) with 9223372036854775808.
  change (2 ^ 63) with 9223372036854775808.
  change (2 ^ 64) with 18446744073709551616.
  intros Hx.
  destruct (Z.ltb_spec (x mod 18446744073709551616) 9223372036854775808);
    Z.div_mod_to_equations; lia.
Qed.

Section ManagerFacts.

Context {St H : Type}.
Implicit Types (m : Manager St H) (w : http.ResponseWriter)
  (r : http.Request) (st : St) (log : list spy.Call).

Lemma SessionStart_fresh m rnd w r st :
  http.cookie_absent_or_empty r (cookieName m) ->
  manager.SessionStart m rnd w r st =
  (fst (fst (SessionInit (provider m) (manager.sessionID m rnd) st)),
   (w ++ [issued_cookie m (manager.sessionID m rnd)])%list,
   snd (SessionInit (provider m) (manager.sessionID m rnd) st)).
Proof.
  unfold http.cookie_absent_or_empty, manager.SessionStart.
  destruct (http.Request_Cookie r (cookieName m)) as [e|c]; intros Hc.
  - now destruct (SessionInit _ _ _) as [[s e'] st'].
  - rewrite Hc. cbn [String.eqb].
    now destruct (SessionInit _ _ _) as [[s e'] st'].
Qed.

Lemma SessionStart_existing m rnd w r st c :
  http.cookie_present r (cookieName m) c ->
  manager.SessionStart m rnd w r st =
  (fst (fst (SessionRead (provider m)
               (fst (url.QueryUnescape (http.Value c))) st)),
   w,
   snd (SessionRead (provider m)
          (fst (url.QueryUnescape (http.Value c))) st)).
Proof.
  unfold http.cookie_present, manager.SessionStart. intros [-> Hv].
  apply String.eqb_neq in Hv. rewrite Hv.
  destruct (url.QueryUnescape _) as [sid e].
  now destruct (SessionRead _ _ _) as [[s e'] st'].
Qed.

Lemma SessionDestroy_absent m now w r st :
  http.cookie_absent_or_empty r (cookieName m) ->
  manager.SessionDestroy m now w r st = (w, st).
Proof.
  unfold http.cookie_absent_or_empty, manager.SessionDestroy.
  destruct (http.Request_Cookie r (cookieName m)) as [e|c]; intros Hc.
  - reflexivity.
  - now rewrite Hc.
Qed.

Lemma SessionDestroy_present m now w r st c :
  http.cookie_present r (cookieName m) c ->
  manager.SessionDestroy m now w r st =
  ((w ++ [expired_cookie m now])%list,
   snd (SessionDestroy (provider m) (http.Value c) st)).
Proof.
  unfold http.cookie_present, manager.SessionDestroy. intros [-> Hv].
  apply String.eqb_neq in Hv. rewrite Hv.
  now destruct (SessionDestroy _ _ _) as [e st'].
Qed.

(** The recording wrapper changes nothing for the request. *)
Lemma traced_cookieName m : cookieName (spy.traced_manager m) = cookieName m.
Proof. reflexivity. Qed.

Lemma traced_sessionID m rnd :
  manager.sessionID (spy.traced_manager m) rnd = manager.sessionID m rnd.
Proof. reflexivity. Qed.

Lemma traced_Init m sid st log :
  SessionInit (provider (spy.traced_manager m)) sid (st, log) =
  (fst (SessionInit (provider m) sid st),
   (snd (SessionInit (provider m) sid st), (log ++ [spy.Init sid])%list)).
Proof. cbn. now destruct (SessionInit _ _ _). Qed.

Lemma traced_Read m sid st log :
  SessionRead (provider (spy.traced_manager m)) sid (st, log) =
  (fst (SessionRead (provider m) sid st),
   (snd (SessionRead (provider m) sid st), (log ++ [spy.Read sid])%list)).
Proof. cbn. now destruct (SessionRead _ _ _). Qed.

Lemma traced_Destroy m sid st log :
  SessionDestroy (provider (spy.traced_manager m)) sid (st, log) =
  (fst (SessionDestroy (provider m) sid st),
   (snd (SessionDestroy (provider m) sid st), (log ++ [spy.Destroy sid])%list)).
Proof. cbn. now destruct (SessionDestroy _ _ _). Qed.

End ManagerFacts.

Lemma append_inv_head (body x y : string) :
  (body ++ x = body ++ y)%string -> x = y.
Proof.
  induction body as [|c body IH]; cbn; intros E; [exact E|].
  injection E as E. now apply IH.
Qed.

Section Identifier.

Context {St H : Type}.
Implicit Types (m : Manager St H) (rnd : RandReader) (b : list byte).

Lemma sessionID_success m rnd b :
  rnd 32%nat = Some b ->
  manager.sessionID m rnd = base64.EncodeToString base64.URLEncoding b.
Proof. unfold manager.sessionID. now intros ->. Qed.

Lemma sessionID_failure m rnd :
  rnd 32%nat = None -> manager.sessionID m rnd = "".
Proof. unfold manager.sessionID. now intros ->. Qed.

(** An identifier of 32 random bytes: 43 characters of the alphabet and
    the padding character. *)
Lemma sessionID_shape m rnd b :
  rnd 32%nat = Some b -> length b = 32%nat ->
  exists body : string,
    manager.sessionID m rnd = (body ++ "=")%string /\
    String.length body = 43%nat /\
    url.all_unreserved body = true.
Proof.
  intros Hrnd Hlen. rewrite (sessionID_success m rnd b Hrnd).
  apply (base64_encode.Encode_remainder_two b 10). exact Hlen.
Qed.

(** Escaping rewrites the padding character, so the cookie value is not
    the identifier; unescaping gives the identifier back. *)
Lemma sessionID_escaped m rnd b :
  rnd 32%nat = Some b -> length b = 32%nat ->
  url.QueryEscape (manager.sessionID m rnd) <> manager.sessionID m rnd /\
  url.QueryUnescape (url.QueryEscape (manager.sessionID m rnd))
    = (manager.sessionID m rnd, None).
Proof.
  intros Hrnd Hlen. split; [|apply url_facts.QueryUnescape_QueryEscape].
  destruct (sessionID_shape m rnd b Hrnd Hlen) as (body & -> & _ & Hall).
  unfold url.QueryEscape.
  rewrite url_facts.escape_app_unreserved by exact Hall.
  intros E. apply append_inv_head in E. discriminate E.
Qed.

End Identifier.

Section MemoryFacts.

Context {K : Type} `{Countable K} {V : Type}.
Implicit Types (st : memory.State K V) (s : memory.SessionStore K V)
  (h : string) (k : K) (v : V).

Lemma sessions_store h s st :
  memory.sessions (memory.store h s st) !! h = Some s.
Proof. unfold memory.store. cbn. apply lookup_insert_eq. Qed.

Lemma handle_Set_live h k v st s :
  memory.sessions st !! h = Some s ->
  memory.handle_Set h k v st =
  (None, memory.store h (memory.store_set (memory.clock st) k v s) st).
Proof. unfold memory.handle_Set. now intros ->. Qed.

Lemma handle_Delete_live h k st s :
  memory.sessions st !! h = Some s ->
  memory.handle_Delete h k st =
  (None, memory.store h (memory.store_delete (memory.clock st) k s) st).
Proof. unfold memory.handle_Delete. now intros ->. Qed.

Lemma handle_Get_live h k st s :
  memory.sessions st !! h = Some s ->
  fst (memory.handle_Get h k st) = memory.values s !! k.
Proof. unfold memory.handle_Get. now intros ->. Qed.

End MemoryFacts.

(** * The claims *)

(** C1.  What [SessionDestroy] does with an identifier this Manager issued.
    For 32 random bytes [b], the cookie value is the escaped identifier;
    [SessionDestroy] hands that value, as it is, to the Provider's destroy
    operation, and it is not the identifier: the padding character is
    escaped.  [SessionStart], on the same request, reads the unescaped
    identifier.  So the destroy operation is invoked on a different string
    than the one the session is kept under. *)
Theorem C1_SessionDestroy_passes_escaped_value
    {St H : Type} (m : Manager St H) (rnd rnd' : RandReader) (b : list byte)
    (now : Z) (w : http.ResponseWriter) (r : http.Request) (c : http.Cookie)
    (st : St) (log : list spy.Call) :
  rnd 32%nat = Some b -> length b = 32%nat ->
  http.cookie_present r (cookieName m) c ->
  http.Value c = url.QueryEscape (manager.sessionID m rnd) ->
  snd (manager.SessionDestroy (spy.traced_manager m) now w r (st, log))
    = (snd (SessionDestroy (provider m) (http.Value c) st),
       (log ++ [spy.Destroy (http.Value c)])%list) /\
  http.Value c <> manager.sessionID m rnd /\
  snd (manager.SessionStart (spy.traced_manager m) rnd' w r (st, log))
    = (snd (SessionRead (provider m) (manager.sessionID m rnd) st),
       (log ++ [spy.Read (manager.sessionID m rnd)])%list).
Proof.
  intros Hrnd Hlen Hc Hv.
  destruct (sessionID_escaped m rnd b Hrnd Hlen) as [Hne Hun].
  assert (Hc' : http.cookie_present r (cookieName (spy.traced_manager m)) c)
    by exact Hc.
  repeat split.
  - rewrite (SessionDestroy_present _ now w r (st, log) c Hc').
    cbn [snd]. now rewrite traced_Destroy.
  - now rewrite Hv.
  - rewrite (SessionStart_existing _ rnd' w r (st, log) c Hc').
    cbn [snd]. rewrite Hv, Hun. cbn [fst]. now rewrite traced_Read.
Qed.

(** The demo's Manager, an identifier of 32 zero bytes, and the request
    that presents the cookie [SessionStart] issued for it: the destroy
    operation receives the escaped value, which is not the identifier. *)
Lemma C1_SessionDestroy_passes_escaped_value_witness :
  let m := demo.globalSessions in
  let sid := manager.sessionID m demo.zero_reader in
  let c := issued_cookie m sid in
  (sid = "AAAAAAAAAAAAAAAAAAAAAAAAAAAAAAAAAAAAAAAAAAA=" /\
   http.Value c = "AAAAAAAAAAAAAAAAAAAAAAAAAAAAAAAAAAAAAAAAAAA%3D") /\
  snd (manager.SessionDestroy (spy.traced_manager m) 0 []
         (demo.request_with [c]) (memory.empty 0, []))
    = (snd (SessionDestroy (provider m) (http.Value c) (memory.empty 0)),
       ([] ++ [spy.Destroy (http.Value c)])%list) /\
  http.Value c <> sid.
Proof.
  intros m sid c.
  assert (H1 : demo.zero_reader 32%nat = Some (repeat x00 32)) by reflexivity.
  assert (H2 : length (repeat x00 32) = 32%nat) by reflexivity.
  assert (H3 : http.cookie_present (demo.request_with [c]) (cookieName m) c)
    by (split; [vm_compute; reflexivity | vm_compute; discriminate]).
  assert (H4 : http.Value c = url.QueryEscape (manager.sessionID m demo.zero_reader))
    by reflexivity.
  destruct (C1_SessionDestroy_passes_escaped_value
              m demo.zero_reader demo.zero_reader (repeat x00 32) 0 []
              (demo.request_with [c]) c (memory.empty 0) [] H1 H2 H3 H4)
    as (Hd & Hne & _).
  split; [split; vm_compute; reflexivity|].
  split; [exact Hd | exact Hne].
Defined.

(** The same run on the memory backend, end to end: a session is started,
    a value stored, the session destroyed with the issued cookie; the
    store is still there, and a later [SessionStart] with that cookie
    finds the value. *)
Example SessionDestroy_leaves_the_store :
  let m := demo.globalSessions in
  let '(session, w1, st1) :=
    manager.SessionStart m demo.zero_reader [] demo.first_request (memory.empty 0) in
  let sid := manager.sessionID m demo.zero_reader in
  let st2 := snd (Set_ memory.Session sid "username" "bob" st1) in
  let r := demo.request_with w1 in
  let '(w3, st3) := manager.SessionDestroy m 5 [] r st2 in
  let '(session', w4, st4) := manager.SessionStart m demo.failing_reader [] r st3 in
  session = Some sid /\
  w3 = [expired_cookie m 5] /\
  memory.recency st3 = [sid] /\
  session' = Some sid /\
  fst (Get memory.Session sid "username" st4) = Some "bob".
Proof. vm_compute. repeat apply conj; exact eq_refl. Qed.

(** C2, as amended.  When the read of the random source fails, the
    identifier generator returns the empty string and reports nothing; on
    the new-session path [SessionStart] then asks the Provider to init the
    empty identifier and issues a cookie whose value is empty. *)
Theorem C2_random_failure_gives_empty_identifier
    {St H : Type} (m : Manager St H) (rnd : RandReader)
    (w : http.ResponseWriter) (r : http.Request) (st : St) :
  rnd 32%nat = None ->
  http.cookie_absent_or_empty r (cookieName m) ->
  manager.sessionID m rnd = "" /\
  manager.SessionStart m rnd w r st =
    (fst (fst (SessionInit (provider m) "" st)),
     (w ++ [{| http.Name := cookieName m;
               http.Value := "";
               http.Path := "/";
               http.Domain := "";
               http.Expires := None;
               http.MaxAge := int_of_int64 (maxLifeTime m);
               http.Secure := false;
               http.HttpOnly := true |}])%list,
     snd (SessionInit (provider m) "" st)).
Proof.
  intros Hrnd Hc.
  pose proof (sessionID_failure m rnd Hrnd) as Hsid.
  split; [exact Hsid|].
  rewrite (SessionStart_fresh m rnd w r st Hc), Hsid. reflexivity.
Qed.

Lemma C2_random_failure_gives_empty_identifier_witness :
  manager.sessionID demo.globalSessions demo.failing_reader = "".
Proof.
  refine (proj1 (C2_random_failure_gives_empty_identifier
                   demo.globalSessions demo.failing_reader []
                   demo.first_request (memory.empty 0) _ _)).
  - reflexivity.
  - exact I.
Defined.

(** C2 as stated fails: with a failing random source and a request
    without cookies, the demo's Manager returns a session whose identifier
    is empty, has the backend keep a store under the empty identifier, and
    issues a cookie with an empty value. *)
Lemma C2_counterexample :
  let run := manager.SessionStart demo.globalSessions demo.failing_reader []
               demo.first_request (memory.empty 0) in
  demo.failing_reader 32%nat = None /\
  fst (fst run) = Some "" /\
  map http.Value (snd (fst run)) = [""] /\
  map http.Name (snd (fst run)) = ["gosessionid"] /\
  memory.recency (snd run) = [""].
Proof. vm_compute. repeat apply conj; exact eq_refl. Qed.

(** C3.  What one invocation of [GC] arms.  After the Provider's sweep, a
    timer is added whose closure runs [GC] on the same Manager and whose
    delay is [maxLifeTime] nanoseconds: the number of seconds the Manager
    was built with, read as a count of [time.Duration] units.  The delay
    of [maxLifeTime] seconds is a thousand million times longer. *)
Theorem C3_GC_rearms_after_nanoseconds
    {St H : Type} (m : Manager St H) (wd : World St H) :
  backend (manager.GC m wd)
    = SessionGC (provider m) (maxLifeTime m) (backend wd) /\
  exists t : time.Timer (Manager St H),
    timers (manager.GC m wd) = (timers wd ++ [t])%list /\
    manager.fire t = manager.GC m /\
    time.d t = maxLifeTime m * time.Nanosecond /\
    maxLifeTime m * time.Second = 1000000000 * time.d t.
Proof.
  split; [reflexivity|].
  exists (time.AfterFunc (time.Duration_of_int64 (maxLifeTime m)) m).
  repeat split.
  - unfold time.Duration_of_int64, time.Nanosecond. cbn. lia.
  - unfold time.Duration_of_int64, time.Second, time.Nanosecond. cbn. lia.
Qed.

(** The demo's Manager, built with 30 (seconds): the timer is armed for 30
    nanoseconds, not for 30 000 000 000. *)
Example GC_demo_delay :
  map time.d (timers (manager.GC demo.globalSessions
                        {| backend := memory.empty 0; timers := [] |})) = [30] /\
  30 * time.Second = 30000000000.
Proof. vm_compute. split; exact eq_refl. Qed.

Lemma QueryEscape_inj (s t : string) :
  url.QueryEscape s = url.QueryEscape t -> s = t.
Proof.
  intros E.
  pose proof (url_facts.QueryUnescape_QueryEscape s) as Hs.
  rewrite E, url_facts.QueryUnescape_QueryEscape in Hs. congruence.
Qed.

(** C4, as amended.  A request whose cookie is absent or empty:
    [SessionStart] generates an identifier, asks the Provider to init it
    (and nothing else), returns what init returned, and adds exactly one
    cookie to the response: the Manager's cookie name, the escaped
    identifier, path "/", HttpOnly, and MaxAge the Manager's lifetime.
    The identifier is fresh as far as the random source is: when the read
    succeeds it is the encoding of the 32 bytes read, and a call that
    reads other bytes gets another identifier and another cookie value;
    when the read fails it is the empty string, on every call. *)
Theorem C4_SessionStart_new_session_cookie
    {St H : Type} (m : Manager St H) (rnd : RandReader)
    (w : http.ResponseWriter) (r : http.Request) (st : St)
    (log : list spy.Call) :
  http.cookie_absent_or_empty r (cookieName m) ->
  int64_range (maxLifeTime m) ->
  manager.SessionStart m rnd w r st =
    (fst (fst (SessionInit (provider m) (manager.sessionID m rnd) st)),
     (w ++ [{| http.Name := cookieName m;
               http.Value := url.QueryEscape (manager.sessionID m rnd);
               http.Path := "/";
               http.Domain := "";
               http.Expires := None;
               http.MaxAge := maxLifeTime m;
               http.Secure := false;
               http.HttpOnly := true |}])%list,
     snd (SessionInit (provider m) (manager.sessionID m rnd) st)) /\
  snd (snd (manager.SessionStart (spy.traced_manager m) rnd w r (st, log)))
    = (log ++ [spy.Init (manager.sessionID m rnd)])%list /\
  (rnd 32%nat = None -> manager.sessionID m rnd = "") /\
  (forall b : list byte,
     rnd 32%nat = Some b -> length b = 32%nat ->
     manager.sessionID m rnd = base64.EncodeToString base64.URLEncoding b /\
     manager.sessionID m rnd <> "" /\
     forall (rnd' : RandReader) (b' : list byte),
       rnd' 32%nat = Some b' -> length b' = 32%nat -> b' <> b ->
       manager.sessionID m rnd' <> manager.sessionID m rnd /\
       url.QueryEscape (manager.sessionID m rnd')
         <> url.QueryEscape (manager.sessionID m rnd)).
Proof.
  intros Hc Hrange. split; [|split; [|split]].
  - rewrite (SessionStart_fresh m rnd w r st Hc).
    unfold issued_cookie. now rewrite (wrap_signed_int64 _ Hrange).
  - assert (Hc' : http.cookie_absent_or_empty r
                    (cookieName (spy.traced_manager m))) by exact Hc.
    rewrite (SessionStart_fresh _ rnd w r (st, log) Hc').
    cbn [snd]. rewrite traced_sessionID, traced_Init. reflexivity.
  - exact (sessionID_failure m rnd).
  - intros b Hrnd Hlen. split; [exact (sessionID_success m rnd b Hrnd)|]. split.
    + destruct (sessionID_shape m rnd b Hrnd Hlen) as (body & -> & _ & _).
      destruct body; discriminate.
    + intros rnd' b' Hrnd' Hlen' Hne.
      assert (Hsid : manager.sessionID m rnd' <> manager.sessionID m rnd).
      { rewrite (sessionID_success m rnd b Hrnd),
          (sessionID_success m rnd' b' Hrnd').
        intros E. apply Hne.
        apply base64_encode.Encode_inj; [congruence | exact E]. }
      split; [exact Hsid|].
      intros E. apply Hsid. exact (QueryEscape_inj _ _ E).
Qed.

(** The demo's Manager on a request without cookies: one init call, and
    an identifier that differs from the one 32 other bytes give. *)
Lemma C4_SessionStart_new_session_cookie_witness :
  snd (snd (manager.SessionStart (spy.traced_manager demo.globalSessions)
              demo.zero_reader [] demo.first_request (memory.empty 0, [])))
    = ([] ++ [spy.Init (manager.sessionID demo.globalSessions demo.zero_reader)])%list /\
  manager.sessionID demo.globalSessions (fun n => Some (repeat x01 n))
    <> manager.sessionID demo.globalSessions demo.zero_reader.
Proof.
  assert (Hc : http.cookie_absent_or_empty demo.first_request
                 (cookieName demo.globalSessions)) by exact I.
  assert (Hrange : int64_range (maxLifeTime demo.globalSessions))
    by (vm_compute; split; [discriminate | reflexivity]).
  destruct (C4_SessionStart_new_session_cookie
              demo.globalSessions demo.zero_reader []
              demo.first_request (memory.empty 0) [] Hc Hrange)
    as (_ & Hlog & _ & Hfresh).
  split; [exact Hlog|].
  refine (proj1 (proj2 (proj2 (Hfresh (repeat x00 32) eq_refl eq_refl))
            (fun n => Some (repeat x01 n)) (repeat x01 32) eq_refl eq_refl _)).
  vm_compute. discriminate.
Defined.

(** C4 as stated fails on "fresh": with a random source whose read
    fails, two requests without cookies in a row are both given the
    empty identifier.  The Provider is asked twice to init it (the memory
    backend refuses the second time, and the session returned is [nil]),
    and both cookies have an empty value. *)
Lemma C4_counterexample :
  let m := spy.traced_manager demo.globalSessions in
  let first := manager.SessionStart m demo.failing_reader []
                 demo.first_request (memory.empty 0, []) in
  let second := manager.SessionStart m demo.failing_reader []
                  demo.first_request (snd first) in
  demo.failing_reader 32%nat = None /\
  snd (snd second) = [spy.Init ""; spy.Init ""] /\
  fst (fst first) = Some "" /\
  fst (fst second) = None /\
  map http.Value (snd (fst first)) = [""] /\
  map http.Value (snd (fst second)) = [""].
Proof. vm_compute. repeat apply conj; exact eq_refl. Qed.

(** C5.  [NewManager] looks the provider up by name.  A name that is not
    in the registry gives no Manager and the "unknown provide" error, as
    a returned value.  A name that is in the registry, in particular one
    that [Register] has just put there, gives a Manager with that
    provider, the given cookie name and the given lifetime, and no
    error. *)
Theorem C5_NewManager_by_name
    {St H : Type} (providers : gmap string (Provider St H))
    (provideName cookieName : string) (maxLifeTime : Z) :
  (providers !! provideName = None ->
   NewManager providers provideName cookieName maxLifeTime
     = (None, Some (ErrUnknownProvide provideName))) /\
  (forall p : Provider St H,
     providers !! provideName = Some p ->
     NewManager providers provideName cookieName maxLifeTime
       = (Some {| cookieName := cookieName; provider := p;
                  maxLifeTime := maxLifeTime |}, None)) /\
  (forall (p : Provider St H) (before : gmap string (Provider St H)),
     Register provideName (Some p) before = Returned providers ->
     NewManager providers provideName cookieName maxLifeTime
       = (Some {| cookieName := cookieName; provider := p;
                  maxLifeTime := maxLifeTime |}, None)).
Proof.
  unfold NewManager. repeat split.
  - now intros ->.
  - now intros p ->.
  - intros p before Hreg. unfold Register in Hreg.
    destruct (before !! provideName); [discriminate|].
    injection Hreg as <-. now rewrite lookup_insert_eq.
Qed.

Lemma C5_NewManager_by_name_witness :
  NewManager (∅ : gmap string (Provider demo.State string))
    "memory" "gosessionid" 30
    = (None, Some (ErrUnknownProvide "memory")) /\
  NewManager demo.providers "memory" "gosessionid" 30
    = (Some {| cookieName := "gosessionid"; provider := memory.Provider;
               maxLifeTime := 30 |}, None).
Proof.
  split.
  - refine (proj1 (C5_NewManager_by_name ∅ "memory" "gosessionid" 30) _).
    apply lookup_empty.
  - refine (proj2 (proj2 (C5_NewManager_by_name
                            demo.providers "memory" "gosessionid" 30))
              memory.Provider ∅ _).
    unfold demo.providers, Register. now rewrite lookup_empty.
Defined.

(** C6, as amended.  An identifier produced from a successful read of
    the random source is the base64 encoding, over the URL alphabet, of
    the 32 bytes read: 43 characters of that alphabet, none of which
    query escaping touches, and one padding character; it determines all
    32 bytes, so none of the 256 random bits is lost.  When the read
    fails, what the generator returns is the empty string. *)
Theorem C6_sessionID_random_or_empty
    {St H : Type} (m : Manager St H) (rnd : RandReader) :
  (rnd 32%nat = None -> manager.sessionID m rnd = "") /\
  (forall b : list byte,
     rnd 32%nat = Some b -> length b = 32%nat ->
     manager.sessionID m rnd = base64.EncodeToString base64.URLEncoding b /\
     (exists body : string,
        manager.sessionID m rnd = (body ++ "=")%string /\
        String.length body = 43%nat /\
        url.all_unreserved body = true) /\
     (forall (rnd' : RandReader) (b' : list byte),
        rnd' 32%nat = Some b' -> length b' = 32%nat ->
        manager.sessionID m rnd' = manager.sessionID m rnd -> b' = b)).
Proof.
  split; [exact (sessionID_failure m rnd)|].
  intros b Hrnd Hlen. split; [|split].
  - exact (sessionID_success m rnd b Hrnd).
  - exact (sessionID_shape m rnd b Hrnd Hlen).
  - intros rnd' b' Hrnd' Hlen' E.
    rewrite (sessionID_success m rnd b Hrnd) in E.
    rewrite (sessionID_success m rnd' b' Hrnd') in E.
    apply base64_encode.Encode_inj; [congruence | exact E].
Qed.

Lemma C6_sessionID_random_or_empty_witness :
  manager.sessionID demo.globalSessions demo.failing_reader = "" /\
  manager.sessionID demo.globalSessions demo.zero_reader
    = base64.EncodeToString base64.URLEncoding (repeat x00 32).
Proof.
  split.
  - refine (proj1 (C6_sessionID_random_or_empty
                     demo.globalSessions demo.failing_reader) _).
    reflexivity.
  - refine (proj1 (proj2 (C6_sessionID_random_or_empty
                            demo.globalSessions demo.zero_reader)
                     (repeat x00 32) _ _)).
    + reflexivity.
    + reflexivity.
Defined.

(** C6 as stated fails: with a random source whose read fails, the
    identifier the generator produces is the empty string, which is the
    encoding of no 32 bytes. *)
Lemma C6_counterexample :
  demo.failing_reader 32%nat = None /\
  manager.sessionID demo.globalSessions demo.failing_reader = "" /\
  ~ exists b : list byte,
      length b = 32%nat /\
      manager.sessionID demo.globalSessions demo.failing_reader
        = base64.EncodeToString base64.URLEncoding b.
Proof.
  split; [reflexivity|]. split; [reflexivity|].
  intros (b & Hlen & E).
  destruct (base64_encode.Encode_remainder_two b 10 Hlen)
    as (body & Hbody & _ & _).
  unfold base64.EncodeToString in E. rewrite Hbody in E.
  change (manager.sessionID demo.globalSessions demo.failing_reader)
    with "" in E.
  destruct body; discriminate E.
Qed.

(** C7.  On a handle whose store the backend holds: after Set of key [k]
    to [v], Get of [k] returns [v]; after Delete of [k], Get of [k]
    returns nothing; whatever the store held before. *)
Theorem C7_Set_Get_Delete
    {K : Type} `{Countable K} {V : Type}
    (st : memory.State K V) (h : string) (k : K) (v : V) :
  is_Some (memory.sessions st !! h) ->
  fst (Get memory.Session h k (snd (Set_ memory.Session h k v st))) = Some v /\
  fst (Get memory.Session h k (snd (Delete memory.Session h k st))) = None.
Proof.
  intros [s Hs]. cbn [Get Set_ Delete memory.Session]. split.
  - rewrite (handle_Set_live h k v st s Hs). cbn [snd].
    rewrite (handle_Get_live h k _ _ (sessions_store h _ st)).
    cbn. apply lookup_insert_eq.
  - rewrite (handle_Delete_live h k st s Hs). cbn [snd].
    rewrite (handle_Get_live h k _ _ (sessions_store h _ st)).
    cbn. apply lookup_delete_eq.
Qed.

Lemma C7_Set_Get_Delete_witness :
  let st := snd (memory.init "s1" (memory.empty 0 : demo.State)) in
  fst (Get memory.Session "s1" "k" (snd (Set_ memory.Session "s1" "k" "v" st)))
    = Some "v" /\
  fst (Get memory.Session "s1" "k" (snd (Delete memory.Session "s1" "k" st)))
    = None.
Proof.
  intros st.
  refine (C7_Set_Get_Delete st "s1" "k" "v" _).
  exists {| memory.sid := "s1"; memory.lastAccessed := 0; memory.values := ∅ |}.
  reflexivity.
Defined.

(** C8.  A request whose cookie is absent or empty: [SessionDestroy]
    leaves the response and the backend's state as they were, and the
    Provider receives no call. *)
Theorem C8_SessionDestroy_without_cookie
    {St H : Type} (m : Manager St H) (now : Z)
    (w : http.ResponseWriter) (r : http.Request) (st : St)
    (log : list spy.Call) :
  http.cookie_absent_or_empty r (cookieName m) ->
  manager.SessionDestroy m now w r st = (w, st) /\
  manager.SessionDestroy (spy.traced_manager m) now w r (st, log)
    = (w, (st, log)).
Proof.
  intros Hc. split.
  - exact (SessionDestroy_absent m now w r st Hc).
  - apply SessionDestroy_absent. exact Hc.
Qed.

Lemma C8_SessionDestroy_without_cookie_witness :
  manager.SessionDestroy demo.globalSessions 0 [] demo.first_request
    (memory.empty 0) = ([], memory.empty 0).
Proof.
  refine (proj1 (C8_SessionDestroy_without_cookie
                   demo.globalSessions 0 [] demo.first_request
                   (memory.empty 0) [] _)).
  exact I.
Defined.

(** C9.  A request that carries a non-empty cookie of the Manager's name:
    [SessionStart] leaves the response as it was. *)
Theorem C9_SessionStart_with_cookie_sets_none
    {St H : Type} (m : Manager St H) (rnd : RandReader)
    (w : http.ResponseWriter) (r : http.Request) (st : St) (c : http.Cookie) :
  http.cookie_present r (cookieName m) c ->
  snd (fst (manager.SessionStart m rnd w r st)) = w.
Proof.
  intros Hc. now rewrite (SessionStart_existing m rnd w r st c Hc).
Qed.

Lemma C9_SessionStart_with_cookie_sets_none_witness :
  let c := issued_cookie demo.globalSessions "stale" in
  snd (fst (manager.SessionStart demo.globalSessions demo.zero_reader []
              (demo.request_with [c]) (memory.empty 0))) = [].
Proof.
  intros c.
  refine (C9_SessionStart_with_cookie_sets_none
            demo.globalSessions demo.zero_reader []
            (demo.request_with [c]) (memory.empty 0) c _).
  split; [vm_compute; reflexivity | vm_compute; discriminate].
Defined.

(** C10.  [SessionStart] returns a session and nothing else.  On either
    path it makes one Provider call and returns the session of that call,
    [nil] included, whatever error came with it; no second call follows a
    failure.  A cookie value that does not unescape is read as the empty
    identifier. *)
Theorem C10_SessionStart_discards_errors
    {St H : Type} (m : Manager St H) (rnd : RandReader)
    (w : http.ResponseWriter) (r : http.Request) (st : St)
    (log : list spy.Call) :
  (http.cookie_absent_or_empty r (cookieName m) ->
   forall (session : option H) (err : error) (st' : St),
     SessionInit (provider m) (manager.sessionID m rnd) st
       = ((session, err), st') ->
     fst (fst (manager.SessionStart m rnd w r st)) = session /\
     snd (manager.SessionStart (spy.traced_manager m) rnd w r (st, log))
       = (st', (log ++ [spy.Init (manager.sessionID m rnd)])%list)) /\
  (forall c : http.Cookie,
     http.cookie_present r (cookieName m) c ->
     forall (session : option H) (err : error) (st' : St),
       SessionRead (provider m) (fst (url.QueryUnescape (http.Value c))) st
         = ((session, err), st') ->
       manager.SessionStart m rnd w r st = (session, w, st') /\
       snd (manager.SessionStart (spy.traced_manager m) rnd w r (st, log))
         = (st', (log ++ [spy.Read (fst (url.QueryUnescape (http.Value c)))])%list)) /\
  (forall (v : string) (e : error_value),
     url.unescape v = inl e -> url.QueryUnescape v = ("", Some e)).
Proof.
  split; [|split].
  - intros Hc session err st' Hinit.
    assert (Hc' : http.cookie_absent_or_empty r
                    (cookieName (spy.traced_manager m))) by exact Hc.
    rewrite (SessionStart_fresh m rnd w r st Hc).
    rewrite (SessionStart_fresh _ rnd w r (st, log) Hc').
    cbn [fst snd]. rewrite traced_sessionID, traced_Init, Hinit. now cbn.
  - intros c Hc session err st' Hread.
    assert (Hc' : http.cookie_present r
                    (cookieName (spy.traced_manager m)) c) by exact Hc.
    rewrite (SessionStart_existing m rnd w r st c Hc).
    rewrite (SessionStart_existing _ rnd w r (st, log) c Hc').
    cbn [fst snd]. rewrite traced_Read, Hread. now cbn.
  - intros v e Hv. unfold url.QueryUnescape. now rewrite Hv.
Qed.

(** A stale cookie on the memory backend: the read reports NotFound, and
    [SessionStart] returns the [nil] session with the backend unchanged. *)
Lemma C10_SessionStart_discards_errors_witness :
  let c := issued_cookie demo.globalSessions "stale" in
  manager.SessionStart demo.globalSessions demo.zero_reader []
    (demo.request_with [c]) (memory.empty 0)
    = (None, [], memory.empty 0).
Proof.
  intros c.
  refine (proj1 (proj1 (proj2 (C10_SessionStart_discards_errors
                   demo.globalSessions demo.zero_reader []
                   (demo.request_with [c]) (memory.empty 0) []))
            c _ None (Some ErrNotFound) (memory.empty 0) _)).
  - split; [vm_compute; reflexivity | vm_compute; discriminate].
  - reflexivity.
Defined.

(** * Further properties of the code *)

(** ** The provider registry *)

(** X1.  A name is registered once: after [Register] has returned for a
    name, every later [Register] under that name panics, whatever
    provider it is given, and so the binding can never change. *)
Theorem Register_twice_panics
    {St H : Type} (name : string) (p : Provider St H)
    (q : option (Provider St H))
    (before after : gmap string (Provider St H)) :
  Register name (Some p) before = Returned after ->
  exists msg : string, Register name q after = Panicked msg.
Proof.
  unfold Register. intros Hreg.
  destruct (before !! name); [discriminate|].
  injection Hreg as <-.
  destruct q as [q|]; [|eauto].
  rewrite lookup_insert_eq. eauto.
Qed.

Lemma Register_twice_panics_witness :
  exists msg : string,
    Register "memory" (Some (memory.Provider (K := string) (V := string)))
      demo.providers = Panicked msg.
Proof.
  refine (Register_twice_panics "memory" memory.Provider
            (Some memory.Provider) ∅ demo.providers _).
  reflexivity.
Defined.

(** X2.  A successful [Register] binds the name it is given and no
    other: the name was free before, is bound to the provider after, and
    [NewManager] for any other name gives what it gave before. *)
Theorem Register_binds_only_its_name
    {St H : Type} (name : string) (p : Provider St H)
    (before after : gmap string (Provider St H)) :
  Register name (Some p) before = Returned after ->
  before !! name = None /\
  after !! name = Some p /\
  forall (other cookieName : string) (maxLifeTime : Z),
    other <> name ->
    NewManager after other cookieName maxLifeTime
      = NewManager before other cookieName maxLifeTime.
Proof.
  unfold Register. intros Hreg.
  destruct (before !! name) eqn:Hfree; [discriminate|].
  injection Hreg as <-.
  split; [reflexivity|]. split; [apply lookup_insert_eq|].
  intros other cookieName maxLifeTime Hne. unfold NewManager.
  now rewrite lookup_insert_ne by congruence.
Qed.

Lemma Register_binds_only_its_name_witness :
  NewManager demo.providers "file" "gosessionid" 30
    = NewManager (∅ : gmap string (Provider demo.State string))
        "file" "gosessionid" 30.
Proof.
  refine (proj2 (proj2 (Register_binds_only_its_name
                          "memory" memory.Provider ∅ demo.providers _))
            "file" "gosessionid" 30 _).
  - reflexivity.
  - discriminate.
Defined.

(** ** SessionDestroy *)

(** X3.  A request that carries a non-empty cookie of the Manager's name:
    [SessionDestroy] makes one Provider call, destroy on the cookie's
    value, drops the error it returns, and adds exactly one cookie to the
    response: the Manager's cookie name, no value, path "/", HttpOnly,
    MaxAge -1 and Expires the time of the call. *)
Theorem SessionDestroy_expires_cookie
    {St H : Type} (m : Manager St H) (now : Z)
    (w : http.ResponseWriter) (r : http.Request) (c : http.Cookie)
    (st : St) (log : list spy.Call) :
  http.cookie_present r (cookieName m) c ->
  manager.SessionDestroy m now w r st =
    ((w ++ [{| http.Name := cookieName m;
               http.Value := "";
               http.Path := "/";
               http.Domain := "";
               http.Expires := Some now;
               http.MaxAge := -1;
               http.Secure := false;
               http.HttpOnly := true |}])%list,
     snd (SessionDestroy (provider m) (http.Value c) st)) /\
  snd (snd (manager.SessionDestroy (spy.traced_manager m) now w r (st, log)))
    = (log ++ [spy.Destroy (http.Value c)])%list.
Proof.
  intros Hc. split.
  - exact (SessionDestroy_present m now w r st c Hc).
  - assert (Hc' : http.cookie_present r
                    (cookieName (spy.traced_manager m)) c) by exact Hc.
    rewrite (SessionDestroy_present _ now w r (st, log) c Hc').
    cbn [snd]. now rewrite traced_Destroy.
Qed.

Lemma SessionDestroy_expires_cookie_witness :
  let c := issued_cookie demo.globalSessions "stale" in
  snd (snd (manager.SessionDestroy (spy.traced_manager demo.globalSessions)
              7 [] (demo.request_with [c]) (memory.empty 0, [])))
    = ([] ++ [spy.Destroy (http.Value c)])%list.
Proof.
  intros c.
  refine (proj2 (SessionDestroy_expires_cookie
                   demo.globalSessions 7 [] (demo.request_with [c]) c
                   (memory.empty 0) [] _)).
  split; [vm_compute; reflexivity | vm_compute; discriminate].
Defined.

(** ** The GC timer chain *)

Lemma iter_shift {A : Type} (f : A -> A) (n : nat) (x : A) :
  Nat.iter n f (f x) = f (Nat.iter n f x).
Proof.
  induction n as [|n IH]; [reflexivity|].
  change (f (Nat.iter n f (f x)) = f (f (Nat.iter n f x))).
  now rewrite IH.
Qed.

(** X4.  Started once in a world without timers, [GC] keeps itself going
    and never doubles: however many timers have fired, exactly one timer
    is pending, its closure runs [GC] on the same Manager, and the
    backend has been swept once by the first call and once for every
    firing. *)
Theorem GC_chain_keeps_one_timer
    {St H : Type} (m : Manager St H) (n : nat) (wd : World St H) :
  timers wd = [] ->
  timers (runtime.run n (manager.GC m wd))
    = [time.AfterFunc (time.Duration_of_int64 (maxLifeTime m)) m] /\
  backend (runtime.run n (manager.GC m wd))
    = Nat.iter (S n) (SessionGC (provider m) (maxLifeTime m)) (backend wd).
Proof.
  revert wd. induction n as [|n IH]; intros wd Hnone.
  - unfold manager.GC. cbn. now rewrite Hnone.
  - cbn [runtime.run].
    assert (Hstep : runtime.fire_next (manager.GC m wd)
                    = manager.GC m
                        {| backend := SessionGC (provider m) (maxLifeTime m)
                                        (backend wd);
                           timers := [] |}).
    { unfold runtime.fire_next, manager.GC at 1. cbn [timers backend].
      rewrite Hnone. reflexivity. }
    rewrite Hstep.
    destruct (IH {| backend := SessionGC (provider m) (maxLifeTime m)
                                 (backend wd);
                    timers := [] |} eq_refl) as [Ht Hb].
    split; [exact Ht|].
    rewrite Hb. cbn [backend].
    rewrite (iter_shift (SessionGC (provider m) (maxLifeTime m)) (S n)).
    reflexivity.
Qed.

Lemma GC_chain_keeps_one_timer_witness :
  map time.d (timers (runtime.run 3
     (manager.GC demo.globalSessions
        {| backend := memory.empty 0; timers := [] |}))) = [30].
Proof.
  rewrite (proj1 (GC_chain_keeps_one_timer demo.globalSessions 3
                    {| backend := memory.empty 0; timers := [] |} eq_refl)).
  vm_compute. reflexivity.
Defined.

(** ** Cookies across requests *)

Lemma escape_nonempty (s : string) : s <> "" -> url.escape s <> "".
Proof.
  destruct s as [|c s]; [congruence|]. intros _. cbn [url.escape].
  destruct (Ascii.eqb c " "); [discriminate|].
  destruct (url.shouldEscape c); discriminate.
Qed.

Lemma escape_inj (s t : string) : url.escape s = url.escape t -> s = t.
Proof.
  intros E.
  pose proof (url_facts.unescape_escape s) as Hs.
  rewrite E, url_facts.unescape_escape in Hs. congruence.
Qed.

Lemma Request_Cookie_single (c : http.Cookie) :
  http.Name c <> "" ->
  http.Request_Cookie {| http.Cookies := [c] |} (http.Name c) = inr c.
Proof.
  intros Hname. unfold http.Request_Cookie.
  apply String.eqb_neq in Hname. rewrite Hname. cbn.
  now rewrite String.eqb_refl.
Qed.

(** X5.  The cookie comes back as the identifier.  A first request
    without a session cookie gets a session under a non-empty identifier;
    when the client sends back the cookie of that response, [SessionStart]
    reads the identifier the session was initialised under, returns what
    the read returns and sets no cookie.  The Manager's cookie name must
    not be empty: a cookie without a name is never found. *)
Theorem SessionStart_cookie_round_trip
    {St H : Type} (m : Manager St H) (rnd rnd' : RandReader)
    (r1 : http.Request) (w2 : http.ResponseWriter) (st : St) :
  cookieName m <> "" ->
  manager.sessionID m rnd <> "" ->
  http.cookie_absent_or_empty r1 (cookieName m) ->
  let first := manager.SessionStart m rnd [] r1 st in
  let sid := manager.sessionID m rnd in
  snd first = snd (SessionInit (provider m) sid st) /\
  manager.SessionStart m rnd' w2 {| http.Cookies := snd (fst first) |} (snd first)
    = (fst (fst (SessionRead (provider m) sid (snd first))),
       w2,
       snd (SessionRead (provider m) sid (snd first))).
Proof.
  intros Hname Hsid Hc first sid. subst first.
  rewrite (SessionStart_fresh m rnd [] r1 st Hc). cbn [fst snd app].
  split; [reflexivity|].
  rewrite (SessionStart_existing m rnd' w2 _ _ (issued_cookie m sid)).
  - cbn [issued_cookie http.Value].
    now rewrite url_facts.QueryUnescape_QueryEscape.
  - split.
    + exact (Request_Cookie_single (issued_cookie m sid) Hname).
    + cbn [issued_cookie http.Value]. apply escape_nonempty. exact Hsid.
Qed.

Lemma SessionStart_cookie_round_trip_witness :
  let m := spy.traced_manager demo.globalSessions in
  let first := manager.SessionStart m demo.zero_reader []
                 demo.first_request (memory.empty 0, []) in
  snd first
    = snd (SessionInit (provider m) (manager.sessionID m demo.zero_reader)
             (memory.empty 0, [])).
Proof.
  intros m first.
  refine (proj1 (SessionStart_cookie_round_trip
                   m demo.zero_reader demo.failing_reader
                   demo.first_request [] (memory.empty 0, []) _ _ _)).
  - vm_compute. discriminate.
  - vm_compute. discriminate.
  - exact I.
Defined.

(** X6.  After a failed random read the client is never recognised.  The
    cookie issued for the empty identifier has an empty value, so the
    request that sends it back is treated like one without a cookie: a
    new identifier is generated and initialised, and another cookie is
    set. *)
Theorem SessionStart_after_random_failure
    {St H : Type} (m : Manager St H) (rnd rnd' : RandReader)
    (r1 : http.Request) (w2 : http.ResponseWriter) (st : St) :
  rnd 32%nat = None ->
  http.cookie_absent_or_empty r1 (cookieName m) ->
  let first := manager.SessionStart m rnd [] r1 st in
  let sid' := manager.sessionID m rnd' in
  manager.SessionStart m rnd' w2 {| http.Cookies := snd (fst first) |} (snd first)
    = (fst (fst (SessionInit (provider m) sid' (snd first))),
       (w2 ++ [issued_cookie m sid'])%list,
       snd (SessionInit (provider m) sid' (snd first))).
Proof.
  intros Hrnd Hc first sid'. subst first.
  rewrite (SessionStart_fresh m rnd [] r1 st Hc). cbn [fst snd app].
  rewrite (sessionID_failure m rnd Hrnd).
  apply SessionStart_fresh.
  unfold http.cookie_absent_or_empty, http.Request_Cookie.
  destruct (String.eqb (cookieName m) ""); [exact I|].
  cbn. rewrite String.eqb_refl. reflexivity.
Qed.

Lemma SessionStart_after_random_failure_witness :
  let m := spy.traced_manager demo.globalSessions in
  let first := manager.SessionStart m demo.failing_reader []
                 demo.first_request (memory.empty 0, []) in
  map http.Value (snd (fst first)) = [""] /\
  snd (snd (manager.SessionStart m demo.zero_reader []
              {| http.Cookies := snd (fst first) |} (snd first)))
    = [spy.Init ""; spy.Init "AAAAAAAAAAAAAAAAAAAAAAAAAAAAAAAAAAAAAAAAAAA="].
Proof.
  intros m first. split; [vm_compute; reflexivity|]. subst first.
  rewrite (SessionStart_after_random_failure
             m demo.failing_reader demo.zero_reader
             demo.first_request [] (memory.empty 0, []) eq_refl I).
  vm_compute. reflexivity.
Defined.

(** X7.  Different random bytes, different cookies: two successful reads
    of 32 bytes that differ give identifiers that differ and cookie
    values that differ. *)
Theorem distinct_bytes_distinct_cookies
    {St H : Type} (m : Manager St H) (rnd1 rnd2 : RandReader)
    (b1 b2 : list byte) :
  rnd1 32%nat = Some b1 -> length b1 = 32%nat ->
  rnd2 32%nat = Some b2 -> length b2 = 32%nat ->
  b1 <> b2 ->
  manager.sessionID m rnd1 <> manager.sessionID m rnd2 /\
  http.Value (issued_cookie m (manager.sessionID m rnd1))
    <> http.Value (issued_cookie m (manager.sessionID m rnd2)).
Proof.
  intros H1 L1 H2 L2 Hne.
  assert (Hsid : manager.sessionID m rnd1 <> manager.sessionID m rnd2).
  { rewrite (sessionID_success m rnd1 b1 H1), (sessionID_success m rnd2 b2 H2).
    intros E. apply Hne. apply base64_encode.Encode_inj; [congruence | exact E]. }
  split; [exact Hsid|].
  cbn [issued_cookie http.Value]. intros E. apply Hsid.
  exact (escape_inj _ _ E).
Qed.

Lemma distinct_bytes_distinct_cookies_witness :
  manager.sessionID demo.globalSessions demo.zero_reader
    <> manager.sessionID demo.globalSessions (fun n => Some (repeat x01 n)).
Proof.
  refine (proj1 (distinct_bytes_distinct_cookies
                   demo.globalSessions demo.zero_reader
                   (fun n => Some (repeat x01 n))
                   (repeat x00 32) (repeat x01 32) _ _ _ _ _)).
  - reflexivity.
  - reflexivity.
  - reflexivity.
  - reflexivity.
  - vm_compute. discriminate.
Defined.

(** ** What the Manager reads from a request *)

Lemma Request_Cookie_other_name (pre post : list http.Cookie)
    (c0 : http.Cookie) (name : string) :
  http.Name c0 <> name ->
  http.Request_Cookie {| http.Cookies := (pre ++ c0 :: post)%list |} name
  = http.Request_Cookie {| http.Cookies := (pre ++ post)%list |} name.
Proof.
  intros Hne. unfold http.Request_Cookie. cbn [http.Cookies].
  destruct (String.eqb name ""); [reflexivity|].
  apply String.eqb_neq in Hne.
  induction pre as [|c pre IH]; cbn [app find].
  - now rewrite Hne.
  - destruct (String.eqb (http.Name c) name); [reflexivity | exact IH].
Qed.

(** X8.  Cookies of other names do not matter: a cookie whose name is not
    the Manager's, anywhere among the request's cookies, changes neither
    what [SessionStart] does nor what [SessionDestroy] does. *)
Theorem other_cookies_are_ignored
    {St H : Type} (m : Manager St H) (rnd : RandReader) (now : Z)
    (w : http.ResponseWriter) (pre post : list http.Cookie)
    (c0 : http.Cookie) (st : St) :
  http.Name c0 <> cookieName m ->
  manager.SessionStart m rnd w {| http.Cookies := (pre ++ c0 :: post)%list |} st
    = manager.SessionStart m rnd w {| http.Cookies := (pre ++ post)%list |} st /\
  manager.SessionDestroy m now w {| http.Cookies := (pre ++ c0 :: post)%list |} st
    = manager.SessionDestroy m now w {| http.Cookies := (pre ++ post)%list |} st.
Proof.
  intros Hne. unfold manager.SessionStart, manager.SessionDestroy.
  now rewrite (Request_Cookie_other_name pre post c0 (cookieName m) Hne).
Qed.

Lemma other_cookies_are_ignored_witness :
  let tracker := {| http.Name := "tracker"; http.Value := "x";
                    http.Path := ""; http.Domain := ""; http.Expires := None;
                    http.MaxAge := 0; http.Secure := false;
                    http.HttpOnly := false |} in
  manager.SessionDestroy demo.globalSessions 0 []
    {| http.Cookies := ([] ++ tracker :: [])%list |} (memory.empty 0)
  = manager.SessionDestroy demo.globalSessions 0 []
      {| http.Cookies := ([] ++ [])%list |} (memory.empty 0).
Proof.
  intros tracker.
  refine (proj2 (other_cookies_are_ignored
                   demo.globalSessions demo.zero_reader 0 [] [] [] tracker
                   (memory.empty 0) _)).
  vm_compute. discriminate.
Defined.

Lemma unescape_trailing_percent (n : nat) :
  forall pre : string, (String.length pre <= n)%nat ->
  exists e : error_value, url.unescape (pre ++ "%") = inl e.
Proof.
  induction n as [|n IH]; intros pre Hlen.
  - destruct pre; [|cbn in Hlen; lia]. change ("" ++ "%")%string with "%". cbn. (eexists; reflexivity).
  - destruct pre as [|c pre]; [change ("" ++ "%")%string with "%"; cbn; (eexists; reflexivity)|].
    cbn [String.length] in Hlen.
    change (String c pre ++ "%")%string with (String c (pre ++ "%")).
    cbn [url.unescape]. destruct (Ascii.eqb c "%").
    + destruct pre as [|h1 [|h2 rest]].
      * change ("" ++ "%")%string with "%". (eexists; reflexivity).
      * change (String h1 "" ++ "%")%string with (String h1 "%").
        assert (Hhex : url.ishex "%" = false) by reflexivity.
        cbv beta iota. rewrite Hhex, andb_false_r.
        (eexists; reflexivity).
      * change (String h1 (String h2 rest) ++ "%")%string
          with (String h1 (String h2 (rest ++ "%"))).
        cbn [String.length] in Hlen. cbv beta iota.
        destruct (url.ishex h1 && url.ishex h2); [|(eexists; reflexivity)].
        destruct (IH rest ltac:(lia)) as [e ->]. (eexists; reflexivity).
    + destruct (IH pre ltac:(lia)) as [e ->]. (eexists; reflexivity).
Qed.

(** X9.  A cookie value that ends in a percent sign does not unescape;
    the error is dropped and [SessionStart] reads the session kept under
    the empty identifier. *)
Theorem SessionStart_malformed_cookie_reads_empty
    {St H : Type} (m : Manager St H) (rnd : RandReader)
    (w : http.ResponseWriter) (r : http.Request) (c : http.Cookie)
    (pre : string) (st : St) :
  http.Request_Cookie r (cookieName m) = inr c ->
  http.Value c = (pre ++ "%")%string ->
  manager.SessionStart m rnd w r st
    = (fst (fst (SessionRead (provider m) "" st)),
       w,
       snd (SessionRead (provider m) "" st)).
Proof.
  intros Hc Hv.
  rewrite (SessionStart_existing m rnd w r st c).
  - destruct (unescape_trailing_percent (String.length pre) pre (le_n _))
      as [e He].
    unfold url.QueryUnescape. rewrite Hv, He. reflexivity.
  - split; [exact Hc|]. rewrite Hv. destruct pre; discriminate.
Qed.

Lemma SessionStart_malformed_cookie_reads_empty_witness :
  let m := spy.traced_manager demo.globalSessions in
  let c := {| http.Name := "gosessionid"; http.Value := "abc%";
              http.Path := ""; http.Domain := ""; http.Expires := None;
              http.MaxAge := 0; http.Secure := false;
              http.HttpOnly := false |} in
  snd (snd (manager.SessionStart m demo.zero_reader []
              (demo.request_with [c]) (memory.empty 0, [])))
    = [spy.Read ""].
Proof.
  intros m c.
  rewrite (SessionStart_malformed_cookie_reads_empty
             m demo.zero_reader [] (demo.request_with [c]) c "abc"
             (memory.empty 0, [])).
  - vm_compute. reflexivity.
  - vm_compute. reflexivity.
  - reflexivity.
Defined.

(** ** The issued cookie value *)

Lemma escape_char_safe (c : ascii) (rest : string) :
  exists head : string,
    url.escape (String c rest) = (head ++ url.escape rest)%string /\
    forallb url.cookie_safe (list_ascii_of_string head) = true.
Proof.
  destruct c as [[] [] [] [] [] [] [] []];
    (eexists (String _ (String _ (String _ ""))); split;
       [reflexivity | vm_compute; reflexivity])
    || (eexists (String _ ""); split;
          [reflexivity | vm_compute; reflexivity]).
Qed.

Lemma forallb_string_app (P : ascii -> bool) (s t : string) :
  forallb P (list_ascii_of_string (s ++ t))
  = forallb P (list_ascii_of_string s) && forallb P (list_ascii_of_string t).
Proof.
  induction s as [|c s IH]; [reflexivity|].
  change (String c s ++ t)%string with (String c (s ++ t)).
  cbn [list_ascii_of_string forallb]. now rewrite IH, andb_assoc.
Qed.

(** X10.  Whatever the identifier, the value of the issued cookie is made
    of letters, digits and the characters [-_.~%+] only: nothing the
    cookie syntax would drop or quote. *)
Theorem issued_cookie_value_is_safe
    {St H : Type} (m : Manager St H) (sid : string) :
  forallb url.cookie_safe
    (list_ascii_of_string (http.Value (issued_cookie m sid))) = true.
Proof.
  cbn [issued_cookie http.Value]. unfold url.QueryEscape.
  induction sid as [|c rest IH]; [reflexivity|].
  destruct (escape_char_safe c rest) as (head & -> & Hhead).
  now rewrite forallb_string_app, Hhead, IH.
Qed.

(** ** The demo's login handler *)

Lemma az3_length (s : string) :
  regexp.MatchString_az3 s = true -> String.length s = 3%nat.
Proof.
  destruct s as [|a [|b [|c [|d s]]]]; cbn; try discriminate. reflexivity.
Qed.

(** X11.  A POST changes the session for a well-formed name only.  When
    the form's username is not three letters [a] to [z], the backend is
    left as [SessionStart] left it: no method of the session is called.
    When it is, and [SessionStart] returned a session, the backend is
    what Set of "username" to that name makes of it. *)
Theorem login_sets_username_iff_valid
    {St H : Type} (m : Manager St H) (S : Session St H string string)
    (rnd : RandReader) (pf : error_value + (option string -> string))
    (w : handler.Response) (r : handler.Request) (st : St)
    (username : string) :
  handler.Method r <> "GET" ->
  handler.first_value (handler.Form r) "username" = Returned username ->
  let start := manager.SessionStart m rnd (handler.cookies w)
                 (handler.request r) st in
  (regexp.MatchString_az3 username = false ->
   handler.state (handler.login m S rnd pf w r st) = snd start) /\
  (regexp.MatchString_az3 username = true ->
   forall h : H, fst (fst start) = Some h ->
   handler.state (handler.login m S rnd pf w r st)
     = snd (Set_ S h "username" username (snd start))).
Proof.
  intros Hpost Huser start. subst start. unfold handler.login.
  destruct (manager.SessionStart m rnd (handler.cookies w)
              (handler.request r) st) as [[sess ck] st1].
  apply String.eqb_neq in Hpost. rewrite Hpost, Huser. cbn [fst snd].
  split.
  - intros Hbad. rewrite Hbad. cbn [negb].
    unfold handler.print_credentials.
    destruct (String.length username =? 0)%nat;
      destruct (handler.first_value (handler.Form r) "password");
      reflexivity.
  - intros Hok h ->. rewrite Hok, (az3_length username Hok). cbn [negb Nat.eqb].
    destruct (Set_ S h "username" username st1) as [e st2]. cbn [snd].
    unfold handler.print_credentials.
    destruct (handler.first_value (handler.Form r) "password"); reflexivity.
Qed.

Lemma login_sets_username_iff_valid_witness :
  let r := {| handler.request := demo.first_request;
              handler.Method := "POST";
              handler.Form := {[ "username" := ["Bob"] ]} |} in
  let w := {| handler.cookies := []; handler.header := [];
              handler.body := "" |} in
  handler.state (handler.login demo.globalSessions memory.Session
                   demo.zero_reader (inl ErrNotFound) w r (memory.empty 0))
    = snd (manager.SessionStart demo.globalSessions demo.zero_reader []
             demo.first_request (memory.empty 0)).
Proof.
  intros r w.
  refine (proj1 (login_sets_username_iff_valid
                   demo.globalSessions memory.Session demo.zero_reader
                   (inl ErrNotFound) w r (memory.empty 0) "Bob" _ _) _).
  - discriminate.
  - reflexivity.
  - reflexivity.
Defined.

Lemma escape_byte_no_markup (c : ascii) :
  existsb template.markup (list_ascii_of_string (template.escape_byte c))
  = false.
Proof. destruct c as [[] [] [] [] [] [] [] []]; reflexivity. Qed.

Lemma existsb_string_app (P : ascii -> bool) (s t : string) :
  existsb P (list_ascii_of_string (s ++ t))
  = existsb P (list_ascii_of_string s) || existsb P (list_ascii_of_string t).
Proof.
  induction s as [|c s IH]; [reflexivity|].
  change (String c s ++ t)%string with (String c (s ++ t)).
  cbn [list_ascii_of_string existsb]. now rewrite IH, orb_assoc.
Qed.

Lemma HTMLEscapeString_no_markup (s : string) :
  existsb template.markup (list_ascii_of_string (template.HTMLEscapeString s))
  = false.
Proof.
  induction s as [|c s IH]; [reflexivity|].
  cbn [template.HTMLEscapeString].
  now rewrite existsb_string_app, escape_byte_no_markup, IH.
Qed.

(** X12.  The answer to a successful login.  For a well-formed name, a
    session and a password in the form, [login] does not panic and
    appends to the body "log in successfully: " and the escaped password,
    in which no quote, no [<], no [>] and no NUL byte is left, whatever
    the password. *)
Theorem login_answer_is_escaped
    {St H : Type} (m : Manager St H) (S : Session St H string string)
    (rnd : RandReader) (pf : error_value + (option string -> string))
    (w : handler.Response) (r : handler.Request) (st : St)
    (h : H) (username password : string) :
  handler.Method r <> "GET" ->
  handler.first_value (handler.Form r) "username" = Returned username ->
  handler.first_value (handler.Form r) "password" = Returned password ->
  regexp.MatchString_az3 username = true ->
  fst (fst (manager.SessionStart m rnd (handler.cookies w)
              (handler.request r) st)) = Some h ->
  let res := handler.login m S rnd pf w r st in
  handler.panicked res = None /\
  handler.body (handler.response res)
    = (handler.body w ++ "log in successfully: "
       ++ template.HTMLEscapeString password)%string /\
  existsb template.markup
    (list_ascii_of_string (template.HTMLEscapeString password)) = false.
Proof.
  intros Hpost Huser Hpass Hok Hsess res. subst res. unfold handler.login.
  destruct (manager.SessionStart m rnd (handler.cookies w)
              (handler.request r) st) as [[sess ck] st1].
  cbn [fst] in Hsess. subst sess.
  apply String.eqb_neq in Hpost.
  rewrite Hpost, Huser, Hok, (az3_length username Hok). cbn [negb Nat.eqb].
  destruct (Set_ S h "username" username st1) as [e st2].
  rewrite Hpass. unfold handler.print_credentials. rewrite Hpass.
  cbn. repeat split. apply HTMLEscapeString_no_markup.
Qed.

Lemma login_answer_is_escaped_witness :
  let r := {| handler.request := demo.first_request;
              handler.Method := "POST";
              handler.Form := {[ "username" := ["bob"];
                                 "password" := ["<b>"] ]} |} in
  let w := {| handler.cookies := []; handler.header := [];
              handler.body := "" |} in
  handler.body (handler.response
    (handler.login demo.globalSessions memory.Session demo.zero_reader
       (inl ErrNotFound) w r (memory.empty 0)))
  = ("" ++ "log in successfully: " ++ template.HTMLEscapeString "<b>")%string.
Proof.
  intros r w.
  refine (proj1 (proj2 (login_answer_is_escaped
                   demo.globalSessions memory.Session demo.zero_reader
                   (inl ErrNotFound) w r (memory.empty 0)
                   "AAAAAAAAAAAAAAAAAAAAAAAAAAAAAAAAAAAAAAAAAAA="
                   "bob" "<b>" _ _ _ _ _))).
  - discriminate.
  - vm_compute. reflexivity.
  - vm_compute. reflexivity.
  - reflexivity.
  - vm_compute. reflexivity.
Defined.

(** X13.  A handler without a session panics.  When [SessionStart]
    returns the [nil] session, which it does whenever the Provider does,
    [login] dereferences it: on a GET whose template parses, and on a
    POST with a well-formed name.  The backend stays as [SessionStart]
    left it. *)
Theorem login_panics_without_session
    {St H : Type} (m : Manager St H) (S : Session St H string string)
    (rnd : RandReader) (pf : error_value + (option string -> string))
    (w : handler.Response) (r : handler.Request) (st : St) :
  fst (fst (manager.SessionStart m rnd (handler.cookies w)
              (handler.request r) st)) = None ->
  (handler.Method r = "GET" /\ (exists t, pf = inr t)) \/
  (handler.Method r <> "GET" /\
   exists username : string,
     handler.first_value (handler.Form r) "username" = Returned username /\
     regexp.MatchString_az3 username = true) ->
  let res := handler.login m S rnd pf w r st in
  handler.panicked res = Some handler.nil_dereference /\
  handler.state res
    = snd (manager.SessionStart m rnd (handler.cookies w)
             (handler.request r) st).
Proof.
  intros Hsess Hcase res. subst res. unfold handler.login.
  destruct (manager.SessionStart m rnd (handler.cookies w)
              (handler.request r) st) as [[sess ck] st1].
  cbn [fst] in Hsess. subst sess. cbn [snd].
  destruct Hcase as [[Hget [t ->]] | [Hpost (username & Huser & Hok)]].
  - rewrite Hget. cbn. split; reflexivity.
  - apply String.eqb_neq in Hpost.
    rewrite Hpost, Huser, Hok, (az3_length username Hok).
    cbn. split; reflexivity.
Qed.

(** A stale cookie on the memory backend: the read reports NotFound, the
    session is [nil], and a GET of the login page panics. *)
Lemma login_panics_without_session_witness :
  let c := issued_cookie demo.globalSessions "stale" in
  let r := {| handler.request := demo.request_with [c];
              handler.Method := "GET";
              handler.Form := ∅ |} in
  let w := {| handler.cookies := []; handler.header := [];
              handler.body := "" |} in
  handler.panicked
    (handler.login demo.globalSessions memory.Session demo.zero_reader
       (inr (fun _ => "page")) w r (memory.empty 0))
  = Some handler.nil_dereference.
Proof.
  intros c r w.
  refine (proj1 (login_panics_without_session
                   demo.globalSessions memory.Session demo.zero_reader
                   (inr (fun _ => "page")) w r (memory.empty 0) _ _)).
  - vm_compute. reflexivity.
  - left. split; [reflexivity | eexists; reflexivity].
Defined.

(** X14.  A POST without a username field panics on the index, after
    [SessionStart] has run: the cookies it set are on the response and
    the backend is as it left it, and nothing has been written to the
    body. *)
Theorem login_POST_without_username
    {St H : Type} (m : Manager St H) (S : Session St H string string)
    (rnd : RandReader) (pf : error_value + (option string -> string))
    (w : handler.Response) (r : handler.Request) (st : St) :
  handler.Method r <> "GET" ->
  handler.Form r !! "username" = None ->
  let start := manager.SessionStart m rnd (handler.cookies w)
                 (handler.request r) st in
  let res := handler.login m S rnd pf w r st in
  handler.panicked res = Some handler.index_out_of_range /\
  handler.cookies (handler.response res) = snd (fst start) /\
  handler.body (handler.response res) = handler.body w /\
  handler.state res = snd start.
Proof.
  intros Hpost Hnone start res. subst start res. unfold handler.login.
  destruct (manager.SessionStart m rnd (handler.cookies w)
              (handler.request r) st) as [[sess ck] st1].
  apply String.eqb_neq in Hpost. rewrite Hpost.
  unfold handler.first_value. rewrite Hnone. cbn. repeat split.
Qed.

Lemma login_POST_without_username_witness :
  let r := {| handler.request := demo.first_request;
              handler.Method := "POST";
              handler.Form := ∅ |} in
  let w := {| handler.cookies := []; handler.header := [];
              handler.body := "" |} in
  handler.panicked
    (handler.login demo.globalSessions memory.Session demo.zero_reader
       (inl ErrNotFound) w r (memory.empty 0))
  = Some handler.index_out_of_range.
Proof.
  intros r w.
  refine (proj1 (login_POST_without_username
                   demo.globalSessions memory.Session demo.zero_reader
                   (inl ErrNotFound) w r (memory.empty 0) _ _)).
  - discriminate.
  - reflexivity.
Defined.



(** ** What the Manager writes to a response *)

(** X16.  The Manager only adds to a response, at most one cookie per
    call, and every cookie it adds bears the Manager's cookie name, path
    "/" and the HttpOnly flag, and is not marked Secure. *)
Theorem Manager_cookies_are_its_own
    {St H : Type} (m : Manager St H) (rnd : RandReader) (now : Z)
    (w : http.ResponseWriter) (r : http.Request) (st : St) :
  let ours (c : http.Cookie) :=
    http.Name c = cookieName m /\ http.Path c = "/" /\
    http.HttpOnly c = true /\ http.Secure c = false in
  (exists added : list http.Cookie,
     snd (fst (manager.SessionStart m rnd w r st)) = (w ++ added)%list /\
     (length added <= 1)%nat /\ Forall ours added) /\
  (exists added : list http.Cookie,
     fst (manager.SessionDestroy m now w r st) = (w ++ added)%list /\
     (length added <= 1)%nat /\ Forall ours added).
Proof.
  intros ours.
  assert (Hnone : forall l : list http.Cookie, l = (l ++ [])%list)
    by (intros l; now rewrite app_nil_r).
  destruct (http.Request_Cookie r (cookieName m)) as [e|c] eqn:Hc.
  - assert (Habs : http.cookie_absent_or_empty r (cookieName m))
      by (unfold http.cookie_absent_or_empty; now rewrite Hc).
    split.
    + rewrite (SessionStart_fresh m rnd w r st Habs). cbn [fst snd].
      eexists. split; [reflexivity|]. split; [cbn; lia|].
      constructor; [|constructor]. repeat split.
    + rewrite (SessionDestroy_absent m now w r st Habs). cbn [fst].
      exists []. split; [apply Hnone|]. split; [cbn; lia | constructor].
  - destruct (String.eqb_spec (http.Value c) "") as [Hv|Hv].
    + assert (Habs : http.cookie_absent_or_empty r (cookieName m))
        by (unfold http.cookie_absent_or_empty; now rewrite Hc).
      split.
      * rewrite (SessionStart_fresh m rnd w r st Habs). cbn [fst snd].
        eexists. split; [reflexivity|]. split; [cbn; lia|].
        constructor; [|constructor]. repeat split.
      * rewrite (SessionDestroy_absent m now w r st Habs). cbn [fst].
        exists []. split; [apply Hnone|]. split; [cbn; lia | constructor].
    + assert (Hpres : http.cookie_present r (cookieName m) c)
        by (split; assumption).
      split.
      * rewrite (SessionStart_existing m rnd w r st c Hpres). cbn [fst snd].
        exists []. split; [apply Hnone|]. split; [cbn; lia | constructor].
      * rewrite (SessionDestroy_present m now w r st c Hpres). cbn [fst].
        eexists. split; [reflexivity|]. split; [cbn; lia|].
        constructor; [|constructor]. repeat split.
Qed.
